(** * Room and turn synchronisation of the island game server

    A shallow embedding of [server.py]: the registry of rooms, the players of
    a room, the turn-progress rule, the three-minute timer and the Socket.IO
    event handlers, followed by the properties of the specification.

    Modelling conventions.
    - A Python [dict] keeps its keys in insertion order and the handlers
      iterate over it ([disconnect], [timer_loop]), so a dict is an
      association list: assignment replaces the value of a present key in
      place and appends an absent one.
    - The handlers mutate [Room] and [Player] objects held by the module-level
      dict [rooms].  Here the registry is passed in and returned, and a
      mutation of an object is a write-back under its key.
    - [sio.emit] and [sio.enter_room] are recorded, in order, in a list of
      effects returned next to the new registry.  [print] is not recorded.
    - [time.time()] is an argument of the handler that reads it.  Timestamps
      are integers (seconds); only their order and [+ 180] are used.
    - [random.choices] takes its draws from an argument.
    - A handler runs from its first to its last statement without another
      handler in between. *)

From Stdlib Require Import List String Ascii ZArith Bool Arith Lia.
Import ListNotations.
Open Scope string_scope.
Open Scope list_scope.

(** ** Insertion-ordered dictionaries with string keys *)

Module Dict.
Section Ops.
Context {V : Type}.

Definition t := list (string * V).

(** [d.get(k)] *)
Fixpoint get (k : string) (d : t) : option V :=
  match d with
  | [] => None
  | (k', v) :: d' => if String.eqb k k' then Some v else get k d'
  end.

(** [k in d] *)
Definition mem (k : string) (d : t) : bool :=
  match get k d with Some _ => true | None => false end.

(** [d[k] = v] *)
Fixpoint set (k : string) (v : V) (d : t) : t :=
  match d with
  | [] => [(k, v)]
  | (k', v') :: d' =>
      if String.eqb k k' then (k, v) :: d' else (k', v') :: set k v d'
  end.

(** [del d[k]] *)
Fixpoint del (k : string) (d : t) : t :=
  match d with
  | [] => []
  | (k', v') :: d' =>
      if String.eqb k k' then del k d' else (k', v') :: del k d'
  end.

Definition keys (d : t) : list string := map fst d.
Definition values (d : t) : list V := map snd d.
Definition len (d : t) : nat := List.length d.
End Ops.
Arguments t : clear implicits.
End Dict.

(** ** Data structures *)

Record Player := mkPlayer {
  sid : string;
  island_name : string;
  save_data : string;
  is_turn_done : bool;
  action_queue : list string
}.

(** [Player.__init__] *)
Definition Player_init (sid0 island_name0 save_data0 : string) : Player :=
  mkPlayer sid0 island_name0 save_data0 false [].

Record Room := mkRoom {
  room_id : string;
  players : Dict.t Player;
  turn : Z;
  max_players : nat;
  turn_deadline : Z;
  timer_active : bool
}.

(** [Room.__init__] *)
Definition Room_init (room_id0 : string) : Room :=
  mkRoom room_id0 [] 0 7 0 false.

(** The module-level [rooms]. *)
Definition Rooms := Dict.t Room.

(** Field assignments. *)
Definition set_save_data (s : string) (p : Player) : Player :=
  mkPlayer (sid p) (island_name p) s (is_turn_done p) (action_queue p).

Definition set_is_turn_done (b : bool) (p : Player) : Player :=
  mkPlayer (sid p) (island_name p) (save_data p) b (action_queue p).

Definition set_players (ps : Dict.t Player) (r : Room) : Room :=
  mkRoom (room_id r) ps (turn r) (max_players r) (turn_deadline r)
         (timer_active r).

Definition set_turn (n : Z) (r : Room) : Room :=
  mkRoom (room_id r) (players r) n (max_players r) (turn_deadline r)
         (timer_active r).

Definition set_turn_deadline (d : Z) (r : Room) : Room :=
  mkRoom (room_id r) (players r) (turn r) (max_players r) d (timer_active r).

Definition set_timer_active (b : bool) (r : Room) : Room :=
  mkRoom (room_id r) (players r) (turn r) (max_players r) (turn_deadline r) b.

(** ** Messages and effects *)

(** The payload a client sends with an event.  [roomId] is [None] when the
    key is missing; the other keys are read with [data[...]] and are taken as
    present, as the handlers' [# data:] comments give them. *)
Record Data := mkData {
  roomId : option string;
  islandName : string;
  saveData : string;
  outgoingActions : list string
}.

(** The two texts sent with ['error']: "room not found" and "room is full". *)
Inductive ErrorMessage := RoomNotFound | RoomFull.

(** The three formatted texts sent with ['system_message']: a player entered,
    a player finished the turn (with the ratio done/total), a player left. *)
Inductive SystemMessage :=
| MsgEntered (name : string)
| MsgTurnDone (name : string) (done_count total : nat)
| MsgLeft (name : string).

Record PlayerInfo := mkPlayerInfo {
  info_sid : string;
  info_name : string;
  info_saveData : string
}.

Inductive Message :=
| proceed_turn (new_turn : Z)
| room_joined (rid : string) (isHost : bool)
| error (message : ErrorMessage)
| system_message (message : SystemMessage)
| player_list (infos : list PlayerInfo)
| timer_start (deadline : Z)
| receive_external_actions (actions : list string) (from : string).

(** [Emit m r] is [sio.emit(..., room=r)]: [r] is a room id or, for a single
    recipient, a connection id.  [EnterRoom] is [sio.enter_room]. *)
Inductive Effect :=
| Emit (m : Message) (room : string)
| EnterRoom (conn : string) (rid : string).

(** ** Utilities *)

Definition digits : string := "0123456789".
Definition ascii_uppercase : string := "ABCDEFGHIJKLMNOPQRSTUVWXYZ".

(** One draw of [random.choices]: an element of the population, at the index
    given by the draw reduced below the population's length. *)
Definition choice (population : string) (draw : nat) : ascii :=
  match String.get (draw mod String.length population) population with
  | Some c => c
  | None => "000"%char
  end.

(** [random.choices(population, k=...)] joined into a string. *)
Fixpoint choices (population : string) (draws : list nat) : string :=
  match draws with
  | [] => EmptyString
  | d :: ds => String (choice population d) (choices population ds)
  end.

(** The draws of one call of [generate_room_id]: three for the digits, two
    for the letters. *)
Definition Draws := ((nat * nat * nat) * (nat * nat))%type.

Definition generate_room_id (r : Draws) : string :=
  let '((d1, d2, d3), (c1, c2)) := r in
  let digits_part := choices digits [d1; d2; d3] in
  let chars := choices ascii_uppercase [c1; c2] in
  String.append digits_part chars.

(** [sum(1 for p in players if p.is_turn_done)] *)
Fixpoint count_done (ps : list Player) : nat :=
  match ps with
  | [] => 0
  | p :: ps' => (if is_turn_done p then 1 else 0) + count_done ps'
  end.

(** The loop [for p in players: p.is_turn_done = False] over the players of
    the room. *)
Definition reset_all (ps : Dict.t Player) : Dict.t Player :=
  map (fun kp => (fst kp, set_is_turn_done false (snd kp))) ps.

Definition check_turn_progression (current_time : Z) (rid : string)
    (rooms : Rooms) : Rooms * list Effect :=
  match Dict.get rid rooms with
  | None => (rooms, [])
  | Some room =>
      let players_ := Dict.values (players room) in
      let count := List.length players_ in
      if Nat.eqb count 0 then (rooms, [])
      else
        let done_count := count_done players_ in
        let should_proceed :=
          if Nat.eqb done_count count then true
          else if (0 <? done_count)%nat && timer_active room then
            (turn_deadline room <=? current_time)%Z
          else false in
        if should_proceed then
          let room1 := set_turn (turn room + 1) room in
          let room2 := set_timer_active false room1 in
          let room3 := set_players (reset_all (players room2)) room2 in
          (Dict.set rid room3 rooms, [Emit (proceed_turn (turn room3)) rid])
        else (rooms, [])
  end.

(** One pass of the body of [timer_loop], after the sleep: the ids are a
    snapshot of the keys, and every call reads the clock itself ([clock]
    gives the reading of the i-th call). *)
Fixpoint timer_sweep (clock : list Z) (ids : list string) (rooms : Rooms)
  : Rooms * list Effect :=
  match ids, clock with
  | rid :: ids', now :: clock' =>
      let '(rooms1, fx1) := check_turn_progression now rid rooms in
      let '(rooms2, fx2) := timer_sweep clock' ids' rooms1 in
      (rooms2, fx1 ++ fx2)
  | _, _ => (rooms, [])
  end.

(** ** Socket.IO events *)

(** The loop of [create_room] that draws ids until one is not registered.
    The list holds the draws of the successive calls of [generate_room_id];
    [None] means that all of them collided, the loop being still running. *)
Fixpoint fresh_room_id (attempts : list Draws) (rooms : Rooms)
  : option string :=
  match attempts with
  | [] => None
  | r :: rest =>
      let rid := generate_room_id r in
      if Dict.mem rid rooms then fresh_room_id rest rooms else Some rid
  end.

Definition create_room (attempts : list Draws) (conn : string) (data : Data)
    (rooms : Rooms) : option (Rooms * list Effect) :=
  match fresh_room_id attempts rooms with
  | None => None
  | Some rid =>
      let rooms1 := Dict.set rid (Room_init rid) rooms in
      let new_player := Player_init conn (islandName data) (saveData data) in
      let rooms2 :=
        match Dict.get rid rooms1 with
        | Some room =>
            Dict.set rid
              (set_players (Dict.set conn new_player (players room)) room)
              rooms1
        | None => rooms1
        end in
      Some (rooms2, [EnterRoom conn rid; Emit (room_joined rid true) conn])
  end.

(** [data['roomId']] on a payload without the key raises [KeyError] before
    anything is done: no effect. *)
Definition join_room (conn : string) (data : Data) (rooms : Rooms)
  : Rooms * list Effect :=
  match roomId data with
  | None => (rooms, [])
  | Some rid =>
      match Dict.get rid rooms with
      | None => (rooms, [Emit (error RoomNotFound) conn])
      | Some room =>
          if (max_players room <=? Dict.len (players room))%nat then
            (rooms, [Emit (error RoomFull) conn])
          else
            let new_player :=
              Player_init conn (islandName data) (saveData data) in
            let room1 :=
              set_players (Dict.set conn new_player (players room)) room in
            (Dict.set rid room1 rooms,
             [EnterRoom conn rid;
              Emit (room_joined rid false) conn;
              Emit (system_message (MsgEntered (islandName data))) rid])
      end
  end.

Definition update_state (conn : string) (data : Data) (rooms : Rooms)
  : Rooms * list Effect :=
  match roomId data with
  | None => (rooms, [])
  | Some rid =>
      match Dict.get rid rooms with
      | None => (rooms, [])
      | Some room =>
          match Dict.get conn (players room) with
          | None => (rooms, [])
          | Some player =>
              let player1 := set_save_data (saveData data) player in
              let room1 :=
                set_players (Dict.set conn player1 (players room)) room in
              (Dict.set rid room1 rooms, [])
          end
      end
  end.

Definition get_player_list (conn : string) (data : Data) (rooms : Rooms)
  : Rooms * list Effect :=
  match roomId data with
  | None => (rooms, [])
  | Some rid =>
      match Dict.get rid rooms with
      | None => (rooms, [])
      | Some room =>
          let players_list :=
            map (fun kp => mkPlayerInfo (fst kp) (island_name (snd kp))
                                        (save_data (snd kp)))
                (players room) in
          (rooms, [Emit (player_list players_list) conn])
      end
  end.

(** [now] is the clock read when the timer is started, [now_check] the one
    read by the call of [check_turn_progression] that ends the handler. *)
Definition submit_turn_action (now now_check : Z) (conn : string)
    (data : Data) (rooms : Rooms) : Rooms * list Effect :=
  match roomId data with
  | None => (rooms, [])
  | Some rid =>
      match Dict.get rid rooms with
      | None => (rooms, [])
      | Some room =>
          match Dict.get conn (players room) with
          | None => (rooms, [])
          | Some player =>
              let player1 :=
                set_is_turn_done true (set_save_data (saveData data) player) in
              let room1 :=
                set_players (Dict.set conn player1 (players room)) room in
              let done_count := count_done (Dict.values (players room1)) in
              let '(room2, fx_timer) :=
                if Nat.eqb done_count 1 then
                  let room_t :=
                    set_turn_deadline (now + 3 * 60)
                                      (set_timer_active true room1) in
                  (room_t, [Emit (timer_start (turn_deadline room_t)) rid])
                else (room1, []) in
              let fx_actions :=
                match outgoingActions data with
                | [] => []
                | _ :: _ =>
                    [Emit (receive_external_actions (outgoingActions data)
                                                    (island_name player1)) rid]
                end in
              let fx_message :=
                [Emit (system_message
                         (MsgTurnDone (island_name player1) done_count
                                      (Dict.len (players room2)))) rid] in
              let '(rooms3, fx_check) :=
                check_turn_progression now_check rid
                                       (Dict.set rid room2 rooms) in
              (rooms3, fx_timer ++ fx_actions ++ fx_message ++ fx_check)
          end
      end
  end.

(** The loop of [disconnect] over the snapshot [list(rooms.keys())]; it
    leaves at the first room that has the connection among its players. *)
Fixpoint disconnect_loop (conn : string) (ids : list string) (rooms : Rooms)
  : Rooms * list Effect :=
  match ids with
  | [] => (rooms, [])
  | rid :: ids' =>
      match Dict.get rid rooms with
      | None => (rooms, [])
      | Some room =>
          match Dict.get conn (players room) with
          | Some player =>
              let player_name := island_name player in
              let room1 := set_players (Dict.del conn (players room)) room in
              let rooms1 := Dict.set rid room1 rooms in
              let fx := [Emit (system_message (MsgLeft player_name)) rid] in
              if Nat.eqb (Dict.len (players room1)) 0
              then (Dict.del rid rooms1, fx)
              else (rooms1, fx)
          | None => disconnect_loop conn ids' rooms
          end
      end
  end.

Definition disconnect (conn : string) (rooms : Rooms) : Rooms * list Effect :=
  disconnect_loop conn (Dict.keys rooms) rooms.

(** ** The server as a transition system *)

Inductive Event :=
| EvCreateRoom (attempts : list Draws) (conn : string) (data : Data)
| EvJoinRoom (conn : string) (data : Data)
| EvUpdateState (conn : string) (data : Data)
| EvGetPlayerList (conn : string) (data : Data)
| EvSubmitTurnAction (now now_check : Z) (conn : string) (data : Data)
| EvDisconnect (conn : string)
| EvTimerCheck (now : Z) (rid : string).

(** [EvTimerCheck] is one call of [check_turn_progression] made by
    [timer_loop]; a pass of the loop is a sequence of them. *)
Definition handle (e : Event) (rooms : Rooms) : option (Rooms * list Effect) :=
  match e with
  | EvCreateRoom attempts conn data => create_room attempts conn data rooms
  | EvJoinRoom conn data => Some (join_room conn data rooms)
  | EvUpdateState conn data => Some (update_state conn data rooms)
  | EvGetPlayerList conn data => Some (get_player_list conn data rooms)
  | EvSubmitTurnAction now now_check conn data =>
      Some (submit_turn_action now now_check conn data rooms)
  | EvDisconnect conn => Some (disconnect conn rooms)
  | EvTimerCheck now rid => Some (check_turn_progression now rid rooms)
  end.

(** The registries the server can be in: it starts empty and every event
    runs its handler. *)
Inductive reachable : Rooms -> Prop :=
| reachable_init : reachable []
| reachable_step : forall rooms e rooms' fx,
    reachable rooms ->
    handle e rooms = Some (rooms', fx) ->
    reachable rooms'.

(** Running a list of events from a registry. *)
Fixpoint run (es : list Event) (rooms : Rooms) : option Rooms :=
  match es with
  | [] => Some rooms
  | e :: es' =>
      match handle e rooms with
      | Some (rooms', _) => run es' rooms'
      | None => None
      end
  end.

(** ** Notions of the specification *)

Definition done_count_of (room : Room) : nat :=
  count_done (Dict.values (players room)).

Definition total_of (room : Room) : nat := Dict.len (players room).

(** The advance condition in the specification's words: everyone finished,
    or at least one finished and the timer is active and the deadline is
    reached. *)
Definition advance_condition (now : Z) (room : Room) : bool :=
  Nat.eqb (done_count_of room) (total_of room)
  || ((0 <? done_count_of room)%nat && timer_active room
      && (turn_deadline room <=? now)%Z).

Definition is_digit (c : ascii) : bool :=
  let n := nat_of_ascii c in (48 <=? n)%nat && (n <=? 57)%nat.

Definition is_upper (c : ascii) : bool :=
  let n := nat_of_ascii c in (65 <=? n)%nat && (n <=? 90)%nat.

(** Three decimal digits followed by two upper-case letters. *)
Definition room_id_format (s : string) : bool :=
  match s with
  | String a (String b (String c (String d (String e EmptyString)))) =>
      is_digit a && is_digit b && is_digit c && is_upper d && is_upper e
  | _ => false
  end.

(** The outcome of [check_turn_progression] on a registered room with at
    least one player: on the advance condition the turn is advanced, the
    timer cleared, every flag reset and the new turn broadcast to the room;
    otherwise nothing happens. *)
Definition turn_outcome (now : Z) (rid : string) (rooms : Rooms) (room : Room)
    (res : Rooms * list Effect) : Prop :=
  let '(rooms', fx) := res in
  if advance_condition now room then
    (exists room',
        Dict.get rid rooms' = Some room'
        /\ turn room' = (turn room + 1)%Z
        /\ timer_active room' = false
        /\ Forall (fun p => is_turn_done p = false)
                  (Dict.values (players room'))
        /\ Dict.keys (players room') = Dict.keys (players room)
        /\ turn_deadline room' = turn_deadline room)
    /\ fx = [Emit (proceed_turn (turn room + 1)) rid]
    /\ (forall k, k <> rid -> Dict.get k rooms' = Dict.get k rooms)
  else rooms' = rooms /\ fx = [].

(** What a player adds to the count of finished players. *)
Definition done_bit (p : Player) : nat := if is_turn_done p then 1 else 0.

(** The outcome of [join_room] for the room id [rid]: an error to the
    requester and no change when the room is not registered or has 7
    players already; otherwise the requester becomes a player of the room
    and is told so.  In every case no room has more than 7 players
    afterwards. *)
Definition join_outcome (conn rid : string) (data : Data) (rooms : Rooms)
    (res : Rooms * list Effect) : Prop :=
  let '(rooms', fx) := res in
  match Dict.get rid rooms with
  | None => rooms' = rooms /\ fx = [Emit (error RoomNotFound) conn]
  | Some room =>
      if (7 <=? Dict.len (players room))%nat then
        rooms' = rooms /\ fx = [Emit (error RoomFull) conn]
      else
        (exists room',
            Dict.get rid rooms' = Some room'
            /\ Dict.get conn (players room')
               = Some (Player_init conn (islandName data) (saveData data))
            /\ (forall k, k <> conn ->
                   Dict.get k (players room') = Dict.get k (players room))
            /\ Dict.len (players room') <= S (Dict.len (players room)))
        /\ fx = [EnterRoom conn rid;
                 Emit (room_joined rid false) conn;
                 Emit (system_message (MsgEntered (islandName data))) rid]
        /\ (forall k, k <> rid -> Dict.get k rooms' = Dict.get k rooms)
  end
  /\ (forall k r, Dict.get k rooms' = Some r -> Dict.len (players r) <= 7).

(** The outcome of [submit_turn_action] by the only player of a room: the
    timer is started and announced, and the call of
    [check_turn_progression] that ends the handler advances the turn and
    clears the timer. *)
Definition solo_submit_outcome (now : Z) (conn rid : string) (data : Data)
    (room : Room) (player : Player) (res : Rooms * list Effect) : Prop :=
  let '(rooms', fx) := res in
  (exists room',
      Dict.get rid rooms' = Some room'
      /\ turn room' = (turn room + 1)%Z
      /\ timer_active room' = false
      /\ turn_deadline room' = (now + 180)%Z
      /\ Dict.keys (players room') = [conn]
      /\ Forall (fun p => is_turn_done p = false)
                (Dict.values (players room')))
  /\ fx = [Emit (timer_start (now + 180)) rid]
          ++ match outgoingActions data with
             | [] => []
             | _ :: _ =>
                 [Emit (receive_external_actions (outgoingActions data)
                                                 (island_name player)) rid]
             end
          ++ [Emit (system_message (MsgTurnDone (island_name player) 1 1))
                   rid;
              Emit (proceed_turn (turn room + 1)) rid].

(** The room after the three assignments of an advance. *)
Definition advanced (room : Room) : Room :=
  let room1 := set_turn (turn room + 1) room in
  let room2 := set_timer_active false room1 in
  set_players (reset_all (players room2)) room2.

(** The player [conn] of a room after the two assignments of
    [submit_turn_action], and the room with the timer started at [now]. *)
Definition mark_done (conn : string) (data : Data) (player : Player)
    (room : Room) : Room :=
  set_players
    (Dict.set conn
       (set_is_turn_done true (set_save_data (saveData data) player))
       (players room))
    room.

Definition start_timer (now : Z) (room : Room) : Room :=
  set_turn_deadline (now + 3 * 60) (set_timer_active true room).

(** What holds of every room of a reachable registry: the capacity is 7,
    the membership is within it, and the timer is on as soon as a player
    has finished. *)
Definition room_inv (kr : string * Room) : Prop :=
  max_players (snd kr) = 7
  /\ Dict.len (players (snd kr)) <= 7
  /\ (0 < done_count_of (snd kr) -> timer_active (snd kr) = true).

(** ** Scenarios *)

Definition draws_123AB : Draws := ((1, 2, 3), (0, 1)).
Definition draws_456CD : Draws := ((4, 5, 6), (2, 3)).
Definition draws_789EF : Draws := ((7, 8, 9), (4, 5)).

Definition data_create (name : string) : Data :=
  mkData None name "save0" [].
Definition data_room (rid name : string) : Data :=
  mkData (Some rid) name "save1" [].

Definition run_from_start (es : list Event) : Rooms :=
  match run es [] with Some rooms => rooms | None => [] end.

(** Player A alone in room 123AB. *)
Definition events_solo : list Event :=
  [EvCreateRoom [draws_123AB] "A" (data_create "IslandA")].
Definition rooms_solo : Rooms := Eval vm_compute in run_from_start events_solo.

(** Players A and B in room 123AB. *)
Definition events_pair : list Event :=
  events_solo ++ [EvJoinRoom "B" (data_room "123AB" "IslandB")].
Definition rooms_pair : Rooms := Eval vm_compute in run_from_start events_pair.

(** A has finished the turn at time 0, B has not. *)
Definition events_pair_a_done : list Event :=
  events_pair ++ [EvSubmitTurnAction 0 0 "A" (data_room "123AB" "IslandA")].
Definition rooms_pair_a_done : Rooms :=
  Eval vm_compute in run_from_start events_pair_a_done.

(** A has finished the turn and then left. *)
Definition events_a_left : list Event :=
  events_pair_a_done ++ [EvDisconnect "A"].
Definition rooms_a_left : Rooms :=
  Eval vm_compute in run_from_start events_a_left.

(** Seven players in room 123AB. *)
Definition events_full : list Event :=
  events_solo
  ++ map (fun c => EvJoinRoom c (data_room "123AB" c))
         ["B"; "C"; "D"; "E"; "F"; "G"].
Definition rooms_full : Rooms := Eval vm_compute in run_from_start events_full.

(** Three rooms: B in 123AB, A alone in 456CD, C and A in 789EF. *)
Definition events_three_rooms : list Event :=
  [EvCreateRoom [draws_123AB] "B" (data_create "IslandB");
   EvCreateRoom [draws_123AB; draws_456CD] "A" (data_create "IslandA");
   EvCreateRoom [draws_789EF] "C" (data_create "IslandC");
   EvJoinRoom "A" (data_room "789EF" "IslandA")].
Definition rooms_three_rooms : Rooms :=
  Eval vm_compute in run_from_start events_three_rooms.

(** ** Notions for the life of a room *)

(** The room of a submission after the player is marked and the timer
    started if the handler's test [done_count == 1] holds. *)
Definition submitted (now : Z) (conn : string) (data : Data)
    (player : Player) (room : Room) : Room :=
  let room1 := mark_done conn data player room in
  if Nat.eqb (done_count_of room1) 1 then start_timer now room1 else room1.

(** The room [create_room] registers. *)
Definition created_room (rid conn : string) (data : Data) : Room :=
  set_players
    (Dict.set conn (Player_init conn (islandName data) (saveData data))
              (players (Room_init rid)))
    (Room_init rid).

(** The room [join_room] writes back. *)
Definition joined_room (conn : string) (data : Data) (room : Room) : Room :=
  set_players
    (Dict.set conn (Player_init conn (islandName data) (saveData data))
              (players room))
    room.

(** The room [update_state] writes back. *)
Definition updated_room (conn : string) (data : Data) (player : Player)
    (room : Room) : Room :=
  set_players
    (Dict.set conn (set_save_data (saveData data) player) (players room))
    room.

(** The room [disconnect] writes back. *)
Definition left_room (conn : string) (room : Room) : Room :=
  set_players (Dict.del conn (players room)) room.

(** The messages of [submit_turn_action] that come before the call of
    [check_turn_progression]. *)
Definition submit_effects (now : Z) (conn rid : string) (data : Data)
    (player : Player) (room : Room) : list Effect :=
  (if Nat.eqb (done_count_of (mark_done conn data player room)) 1
   then [Emit (timer_start (now + 3 * 60)) rid] else [])
  ++ match outgoingActions data with
     | [] => []
     | _ :: _ =>
         [Emit (receive_external_actions (outgoingActions data)
                                         (island_name player)) rid]
     end
  ++ [Emit (system_message
              (MsgTurnDone (island_name player)
                 (done_count_of (mark_done conn data player room))
                 (total_of (submitted now conn data player room)))) rid].

(** All the ways in which one event, with effects [fx], changes the room
    [rid] when it stays registered. *)
Inductive room_change (rid : string) (fx : list Effect)
  : Room -> Room -> Prop :=
| rc_same : forall room, room_change rid fx room room
| rc_join : forall room conn data,
    (Dict.len (players room) < max_players room)%nat ->
    room_change rid fx room (joined_room conn data room)
| rc_update : forall room conn data player,
    Dict.get conn (players room) = Some player ->
    room_change rid fx room (updated_room conn data player room)
| rc_submit : forall room now conn data player,
    Dict.get conn (players room) = Some player ->
    room_change rid fx room (submitted now conn data player room)
| rc_submit_advance : forall room now now_check conn data player,
    Dict.get conn (players room) = Some player ->
    advance_condition now_check (submitted now conn data player room) = true ->
    In (Emit (proceed_turn (turn room + 1)) rid) fx ->
    room_change rid fx room (advanced (submitted now conn data player room))
| rc_advance : forall room now,
    players room <> [] ->
    advance_condition now room = true ->
    In (Emit (proceed_turn (turn room + 1)) rid) fx ->
    room_change rid fx room (advanced room)
| rc_leave : forall room conn player,
    Dict.get conn (players room) = Some player ->
    Dict.del conn (players room) <> [] ->
    room_change rid fx room (left_room conn room).

(** A room as the handlers keep it: stored under its own id, with at least
    one player, the players stored under their own connection ids, each
    once, and a turn that is not negative. *)
Definition room_wf (rid : string) (room : Room) : Prop :=
  room_id room = rid
  /\ players room <> []
  /\ NoDup (Dict.keys (players room))
  /\ (forall k p, Dict.get k (players room) = Some p -> sid p = k)
  /\ (0 <= turn room)%Z.

(** The list [get_player_list] sends. *)
Definition player_infos (room : Room) : list PlayerInfo :=
  map (fun kp => mkPlayerInfo (fst kp) (island_name (snd kp))
                              (save_data (snd kp)))
      (players room).

(** The connection of an event sent by a client. *)
Definition event_conn (e : Event) : option string :=
  match e with
  | EvCreateRoom _ conn _ => Some conn
  | EvJoinRoom conn _ => Some conn
  | EvUpdateState conn _ => Some conn
  | EvGetPlayerList conn _ => Some conn
  | EvSubmitTurnAction _ _ conn _ => Some conn
  | EvDisconnect conn => Some conn
  | EvTimerCheck _ _ => None
  end.

(** The events that neither add nor remove a player: all but
    [create_room], [join_room] and [disconnect]. *)
Definition keeps_membership (e : Event) : bool :=
  match e with
  | EvUpdateState _ _ | EvGetPlayerList _ _
  | EvSubmitTurnAction _ _ _ _ | EvTimerCheck _ _ => true
  | EvCreateRoom _ _ _ | EvJoinRoom _ _ | EvDisconnect _ => false
  end.

(** The connection is a player of no registered room. *)
Definition stranger (conn : string) (rooms : Rooms) : Prop :=
  forall rid room,
    Dict.get rid rooms = Some room -> Dict.get conn (players room) = None.

(** Who is in a room: the connection ids with the island names, in the
    order of the dict. *)
Definition roster (room : Room) : list (string * string) :=
  map (fun kp => (fst kp, island_name (snd kp))) (players room).

(** ** Facts on dictionaries *)

Section DictFacts.
Context {V : Type}.
Implicit Types (d : Dict.t V) (k : string) (v : V).

Lemma get_set_same k v d : Dict.get k (Dict.set k v d) = Some v.
Proof.
  induction d as [|[k' v'] d IH]; simpl.
  - now rewrite String.eqb_refl.
  - destruct (String.eqb k k') eqn:E; simpl.
    + now rewrite String.eqb_refl.
    + now rewrite E.
Qed.

Lemma get_set_other k k' v d :
  k' <> k -> Dict.get k' (Dict.set k v d) = Dict.get k' d.
Proof.
  intros N. induction d as [|[k0 v0] d IH]; simpl.
  - apply String.eqb_neq in N. now rewrite N.
  - destruct (String.eqb k k0) eqn:E; simpl.
    + apply String.eqb_eq in E. subst k0.
      apply String.eqb_neq in N. now rewrite N.
    + now rewrite IH.
Qed.

Lemma get_del_same k d : Dict.get k (Dict.del k d) = None.
Proof.
  induction d as [|[k' v'] d IH]; simpl; auto.
  destruct (String.eqb k k') eqn:E; simpl; auto.
  now rewrite E.
Qed.

Lemma get_del_other k k' d :
  k' <> k -> Dict.get k' (Dict.del k d) = Dict.get k' d.
Proof.
  intros N. induction d as [|[k0 v0] d IH]; simpl; auto.
  destruct (String.eqb k k0) eqn:E; simpl.
  - apply String.eqb_eq in E. subst k0.
    apply String.eqb_neq in N. now rewrite N.
  - now rewrite IH.
Qed.

Lemma in_keys_get k d :
  In k (Dict.keys d) -> exists v, Dict.get k d = Some v.
Proof.
  induction d as [|[k' v'] d IH]; simpl; [tauto|].
  intros [->|H].
  - rewrite String.eqb_refl. eauto.
  - destruct (String.eqb k k'); eauto.
Qed.

Lemma get_in_keys k v d : Dict.get k d = Some v -> In k (Dict.keys d).
Proof.
  induction d as [|[k' v'] d IH]; simpl; [discriminate|].
  destruct (String.eqb k k') eqn:E.
  - apply String.eqb_eq in E. auto.
  - auto.
Qed.

Lemma get_none_not_in k d : Dict.get k d = None -> ~ In k (Dict.keys d).
Proof.
  intros H I. apply in_keys_get in I as [v I]. congruence.
Qed.

Lemma keys_set_present k v v0 d :
  Dict.get k d = Some v0 -> Dict.keys (Dict.set k v d) = Dict.keys d.
Proof.
  induction d as [|[k' v'] d IH]; simpl; [discriminate|].
  destruct (String.eqb k k') eqn:E; simpl.
  - apply String.eqb_eq in E. now subst.
  - intros H. now rewrite IH.
Qed.

Lemma keys_set_absent k v d :
  Dict.get k d = None -> Dict.keys (Dict.set k v d) = Dict.keys d ++ [k].
Proof.
  induction d as [|[k' v'] d IH]; simpl; auto.
  destruct (String.eqb k k') eqn:E; simpl; [discriminate|].
  intros H. now rewrite IH.
Qed.

Lemma len_set_present k v v0 d :
  Dict.get k d = Some v0 -> Dict.len (Dict.set k v d) = Dict.len d.
Proof.
  intros H. unfold Dict.len.
  rewrite <- (length_map fst (Dict.set k v d)), <- (length_map fst d).
  change (map fst (Dict.set k v d)) with (Dict.keys (Dict.set k v d)).
  now rewrite (keys_set_present _ _ _ _ H).
Qed.

Lemma len_set_le k v d : Dict.len (Dict.set k v d) <= S (Dict.len d).
Proof.
  unfold Dict.len.
  induction d as [|[k' v'] d IH]; simpl; auto.
  destruct (String.eqb k k'); simpl; lia.
Qed.

Lemma keys_del_not_in k d : ~ In k (Dict.keys (Dict.del k d)).
Proof.
  apply get_none_not_in, get_del_same.
Qed.

Lemma in_keys_del k k' d :
  In k' (Dict.keys (Dict.del k d)) -> In k' (Dict.keys d).
Proof.
  unfold Dict.keys. induction d as [|[k0 v0] d IH]; simpl; auto.
  destruct (String.eqb k k0); simpl; intros H; auto.
  destruct H; auto.
Qed.

Lemma nodup_keys_del k d :
  NoDup (Dict.keys d) -> NoDup (Dict.keys (Dict.del k d)).
Proof.
  induction d as [|[k0 v0] d IH]; simpl; auto.
  intros H. inversion H; subst.
  destruct (String.eqb k k0); simpl; auto.
  constructor; auto. intros I. now apply in_keys_del in I.
Qed.

Lemma nodup_keys_set k v d :
  NoDup (Dict.keys d) -> NoDup (Dict.keys (Dict.set k v d)).
Proof.
  intros H. destruct (Dict.get k d) as [v0|] eqn:G.
  - now rewrite (keys_set_present _ _ _ _ G).
  - rewrite (keys_set_absent _ _ _ G).
    apply NoDup_app; auto.
    + repeat constructor. simpl. tauto.
    + intros x I [<-|[]]. now apply get_none_not_in in G.
Qed.

Lemma forall_set (P : string * V -> Prop) k v d :
  Forall P d -> P (k, v) -> Forall P (Dict.set k v d).
Proof.
  intros H Hv. induction H as [|[k' v'] d Hx H IH]; simpl.
  - auto.
  - destruct (String.eqb k k'); auto.
Qed.

Lemma forall_del (P : string * V -> Prop) k d :
  Forall P d -> Forall P (Dict.del k d).
Proof.
  intros H. induction H as [|[k' v'] d Hx H IH]; simpl; auto.
  destruct (String.eqb k k'); auto.
Qed.

Lemma get_forall (P : string * V -> Prop) k v d :
  Forall P d -> Dict.get k d = Some v -> P (k, v).
Proof.
  intros H. induction H as [|[k' v'] d Hx H IH]; simpl; [discriminate|].
  destruct (String.eqb k k') eqn:E; auto.
  apply String.eqb_eq in E. subst k'. now intros [= ->].
Qed.

(** A dictionary without repeated keys, split at one of its entries. *)
Lemma get_middle l1 k v l2 :
  ~ In k (Dict.keys l1) -> Dict.get k (l1 ++ (k, v) :: l2) = Some v.
Proof.
  induction l1 as [|[k' v'] l1 IH]; simpl; intros N.
  - now rewrite String.eqb_refl.
  - destruct (String.eqb k k') eqn:E.
    + apply String.eqb_eq in E. subst. tauto.
    + apply IH. tauto.
Qed.

Lemma set_middle l1 k v v' l2 :
  ~ In k (Dict.keys l1) ->
  Dict.set k v' (l1 ++ (k, v) :: l2) = l1 ++ (k, v') :: l2.
Proof.
  induction l1 as [|[k0 v0] l1 IH]; simpl; intros N.
  - now rewrite String.eqb_refl.
  - destruct (String.eqb k k0) eqn:E.
    + apply String.eqb_eq in E. subst. tauto.
    + rewrite IH; tauto.
Qed.

Lemma del_absent k d : ~ In k (Dict.keys d) -> Dict.del k d = d.
Proof.
  induction d as [|[k0 v0] d IH]; simpl; intros N; auto.
  destruct (String.eqb k k0) eqn:E.
  - apply String.eqb_eq in E. subst. tauto.
  - rewrite IH; tauto.
Qed.

Lemma del_middle l1 k v l2 :
  ~ In k (Dict.keys l1) -> ~ In k (Dict.keys l2) ->
  Dict.del k (l1 ++ (k, v) :: l2) = l1 ++ l2.
Proof.
  induction l1 as [|[k0 v0] l1 IH]; simpl; intros N1 N2.
  - rewrite String.eqb_refl. now apply del_absent.
  - destruct (String.eqb k k0) eqn:E.
    + apply String.eqb_eq in E. subst. tauto.
    + rewrite IH; tauto.
Qed.
End DictFacts.

(** ** Facts on the players of a room *)

Lemma length_values {V : Type} (d : Dict.t V) :
  List.length (Dict.values d) = Dict.len d.
Proof. apply length_map. Qed.

Lemma count_done_le_length ps : count_done ps <= List.length ps.
Proof.
  induction ps as [|p ps IH]; simpl; auto.
  destruct (is_turn_done p); lia.
Qed.

Lemma count_done_zero ps :
  Forall (fun p => is_turn_done p = false) ps -> count_done ps = 0.
Proof.
  induction 1 as [|p ps Hp _ IH]; simpl; auto.
  now rewrite Hp.
Qed.

Lemma reset_all_not_done ps :
  Forall (fun p => is_turn_done p = false) (Dict.values (reset_all ps)).
Proof.
  induction ps as [|[k p] ps IH]; simpl; constructor; auto.
Qed.

Lemma keys_reset_all ps : Dict.keys (reset_all ps) = Dict.keys ps.
Proof.
  unfold Dict.keys, reset_all. rewrite map_map. reflexivity.
Qed.

Lemma len_reset_all ps : Dict.len (reset_all ps) = Dict.len ps.
Proof. apply length_map. Qed.

Lemma count_set_present k v p d :
  Dict.get k d = Some p ->
  count_done (Dict.values (Dict.set k v d)) + done_bit p
  = count_done (Dict.values d) + done_bit v.
Proof.
  unfold done_bit.
  induction d as [|[k0 p0] d IH]; simpl; [discriminate|].
  destruct (String.eqb k k0); simpl.
  - intros [= ->]. lia.
  - intros H. specialize (IH H). lia.
Qed.

Lemma count_set_absent k v d :
  Dict.get k d = None ->
  count_done (Dict.values (Dict.set k v d))
  = count_done (Dict.values d) + done_bit v.
Proof.
  unfold done_bit.
  induction d as [|[k0 p0] d IH]; simpl.
  - intros _. lia.
  - destruct (String.eqb k k0); simpl; [discriminate|].
    intros H. rewrite (IH H). lia.
Qed.

Lemma count_done_pos k p d :
  Dict.get k d = Some p -> is_turn_done p = true ->
  0 < count_done (Dict.values d).
Proof.
  induction d as [|[k0 p0] d IH]; simpl; [discriminate|].
  destruct (String.eqb k k0).
  - intros [= ->] ->. lia.
  - intros G D. specialize (IH G D). lia.
Qed.

Lemma count_del_le k d :
  count_done (Dict.values (Dict.del k d)) <= count_done (Dict.values d).
Proof.
  induction d as [|[k0 p0] d IH]; simpl; auto.
  destruct (String.eqb k k0); simpl; lia.
Qed.

Lemma len_del_le {V : Type} k (d : Dict.t V) :
  Dict.len (Dict.del k d) <= Dict.len d.
Proof.
  unfold Dict.len. induction d as [|[k0 v0] d IH]; simpl; auto.
  destruct (String.eqb k k0); simpl; lia.
Qed.

(** ** The turn-progress rule *)

(** The nested conditional of the source computes the advance condition. *)
Lemma check_turn_progression_eq now rid rooms room :
  Dict.get rid rooms = Some room ->
  players room <> [] ->
  check_turn_progression now rid rooms
  = if advance_condition now room
    then (Dict.set rid (advanced room) rooms,
          [Emit (proceed_turn (turn room + 1)) rid])
    else (rooms, []).
Proof.
  intros G NE. unfold check_turn_progression. rewrite G.
  rewrite length_values.
  destruct (Nat.eqb (Dict.len (players room)) 0) eqn:E0.
  - apply Nat.eqb_eq in E0. destruct (players room); [tauto|discriminate].
  - unfold advance_condition, done_count_of, total_of.
    destruct (Nat.eqb _ (Dict.len (players room))); reflexivity.
Qed.

(** Every call either does nothing or advances a registered room. *)
Lemma check_turn_progression_cases now rid rooms :
  check_turn_progression now rid rooms = (rooms, [])
  \/ exists room,
      Dict.get rid rooms = Some room
      /\ players room <> []
      /\ advance_condition now room = true
      /\ check_turn_progression now rid rooms
         = (Dict.set rid (advanced room) rooms,
            [Emit (proceed_turn (turn room + 1)) rid]).
Proof.
  destruct (Dict.get rid rooms) as [room|] eqn:G.
  - destruct (players room) as [|kp ps] eqn:P.
    + left. unfold check_turn_progression. now rewrite G, P.
    + assert (NE : players room <> []) by (rewrite P; discriminate).
      rewrite (check_turn_progression_eq now _ _ _ G NE).
      destruct (advance_condition now room) eqn:A; auto.
      right. exists room. auto.
  - left. unfold check_turn_progression. now rewrite G.
Qed.

(** C1. On a registered room with at least one player
    [check_turn_progression] advances exactly on the advance condition
    (everyone done, or someone done with the timer active and the deadline
    reached); an advance adds one to the turn, clears the timer, resets
    every player's flag and broadcasts [proceed_turn] with the new turn to
    the room; without the condition it does nothing. *)
Theorem check_turn_progression_advances now rid rooms room :
  Dict.get rid rooms = Some room ->
  players room <> [] ->
  turn_outcome now rid rooms room (check_turn_progression now rid rooms).
Proof.
  intros G NE. rewrite (check_turn_progression_eq now _ _ _ G NE).
  unfold turn_outcome.
  destruct (advance_condition now room); [|auto].
  split; [|split].
  - exists (advanced room). rewrite get_set_same.
    split; [reflexivity|]. simpl.
    repeat split; auto using reset_all_not_done, keys_reset_all.
  - reflexivity.
  - intros k N. now apply get_set_other.
Qed.

Lemma check_turn_progression_advances_witness :
  exists room,
    Dict.get "123AB" rooms_pair_a_done = Some room
    /\ players room <> []
    /\ turn_outcome 200 "123AB" rooms_pair_a_done room
         (check_turn_progression 200 "123AB" rooms_pair_a_done).
Proof.
  eexists. split; [reflexivity|]. split; [discriminate|].
  apply check_turn_progression_advances; [reflexivity|discriminate].
Defined.

(** C8. When the advance condition is false, and also when the room id is
    not registered or the room has no player, [check_turn_progression]
    changes nothing and emits nothing, and so does a second call. *)
Theorem check_turn_progression_idle now rid rooms :
  match Dict.get rid rooms with
  | None => True
  | Some room => players room = [] \/ advance_condition now room = false
  end ->
  check_turn_progression now rid rooms = (rooms, [])
  /\ check_turn_progression now rid
       (fst (check_turn_progression now rid rooms)) = (rooms, []).
Proof.
  intros H.
  assert (E : check_turn_progression now rid rooms = (rooms, [])).
  { destruct (Dict.get rid rooms) as [room|] eqn:G.
    - destruct (players room) as [|kp ps] eqn:P.
      + unfold check_turn_progression. now rewrite G, P.
      + destruct H as [H|H]; [discriminate|].
        rewrite (check_turn_progression_eq now _ _ _ G).
        * now rewrite H.
        * rewrite P. discriminate.
    - unfold check_turn_progression. now rewrite G. }
  rewrite E. auto.
Qed.

Lemma check_turn_progression_idle_witness :
  match Dict.get "123AB" rooms_pair_a_done with
  | None => True
  | Some room => players room = [] \/ advance_condition 100 room = false
  end
  /\ check_turn_progression 100 "123AB" rooms_pair_a_done
     = (rooms_pair_a_done, [])
  /\ check_turn_progression 100 "123AB"
       (fst (check_turn_progression 100 "123AB" rooms_pair_a_done))
     = (rooms_pair_a_done, []).
Proof.
  split.
  - simpl. right. reflexivity.
  - apply (check_turn_progression_idle 100 "123AB" rooms_pair_a_done).
    simpl. right. reflexivity.
Defined.

(** ** Room identifiers *)

Lemma choice_digits_is_digit d : is_digit (choice digits d) = true.
Proof.
  unfold choice. change (String.length digits) with 10.
  pose proof (Nat.mod_upper_bound d 10) as B.
  remember (d mod 10) as n eqn:E. clear E.
  do 10 (destruct n as [|n]; [reflexivity|]). lia.
Qed.

Lemma choice_uppercase_is_upper d :
  is_upper (choice ascii_uppercase d) = true.
Proof.
  unfold choice. change (String.length ascii_uppercase) with 26.
  pose proof (Nat.mod_upper_bound d 26) as B.
  remember (d mod 26) as n eqn:E. clear E.
  do 26 (destruct n as [|n]; [reflexivity|]). lia.
Qed.

Lemma generate_room_id_format r : room_id_format (generate_room_id r) = true.
Proof.
  destruct r as [[[d1 d2] d3] [c1 c2]].
  unfold generate_room_id. cbn [choices String.append room_id_format].
  now rewrite !choice_digits_is_digit, !choice_uppercase_is_upper.
Qed.

(** The loop returns the first generated id that is not registered, and
    gives up only when every attempt collided. *)
Lemma fresh_room_id_spec attempts rooms :
  match fresh_room_id attempts rooms with
  | Some rid =>
      room_id_format rid = true
      /\ Dict.mem rid rooms = false
      /\ exists r, In r attempts /\ rid = generate_room_id r
  | None =>
      Forall (fun r => Dict.mem (generate_room_id r) rooms = true) attempts
  end.
Proof.
  induction attempts as [|r rest IH]; simpl; [constructor|].
  destruct (Dict.mem (generate_room_id r) rooms) eqn:M.
  - destruct (fresh_room_id rest rooms) as [rid|].
    + destruct IH as (F & N & r' & I & E). eauto 6.
    + constructor; auto.
  - split; [apply generate_room_id_format|]. eauto.
Qed.

(** C9. The identifier under which [create_room] registers a room has
    three decimal digits followed by two upper-case letters and is the key
    of no room registered at that moment; the loop draws again on a
    collision, and it yields no identifier only while every drawn one is
    already registered. *)
Theorem create_room_issues_fresh_id attempts conn data rooms :
  match create_room attempts conn data rooms with
  | Some (rooms', fx) =>
      exists rid,
        fx = [EnterRoom conn rid; Emit (room_joined rid true) conn]
        /\ room_id_format rid = true
        /\ Dict.mem rid rooms = false
        /\ (exists room,
              Dict.get rid rooms' = Some room
              /\ room_id room = rid
              /\ Dict.keys (players room) = [conn])
        /\ (forall k, k <> rid -> Dict.get k rooms' = Dict.get k rooms)
  | None =>
      Forall (fun r => Dict.mem (generate_room_id r) rooms = true) attempts
  end.
Proof.
  unfold create_room.
  pose proof (fresh_room_id_spec attempts rooms) as S.
  destruct (fresh_room_id attempts rooms) as [rid|]; [|exact S].
  destruct S as (F & N & _).
  exists rid. rewrite get_set_same.
  repeat split; auto.
  - eexists. rewrite get_set_same. repeat split; reflexivity.
  - intros k K. now rewrite !get_set_other.
Qed.

(** ** What the handlers do to the registry *)

Lemma done_count_advanced room : done_count_of (advanced room) = 0.
Proof.
  unfold done_count_of, advanced. simpl.
  apply count_done_zero, reset_all_not_done.
Qed.

Lemma submit_turn_action_cases now now_check conn data rooms :
  submit_turn_action now now_check conn data rooms = (rooms, [])
  \/ exists rid room player fx0,
      roomId data = Some rid
      /\ Dict.get rid rooms = Some room
      /\ Dict.get conn (players room) = Some player
      /\ let room1 := mark_done conn data player room in
         let room2 :=
           if Nat.eqb (done_count_of room1) 1
           then start_timer now room1 else room1 in
         let res :=
           check_turn_progression now_check rid (Dict.set rid room2 rooms) in
         submit_turn_action now now_check conn data rooms
         = (fst res, fx0 ++ snd res).
Proof.
  unfold submit_turn_action.
  destruct (roomId data) as [rid|]; auto.
  destruct (Dict.get rid rooms) as [room|] eqn:G; auto.
  destruct (Dict.get conn (players room)) as [player|] eqn:P; auto.
  right. exists rid, room, player.
  fold (mark_done conn data player room).
  fold (done_count_of (mark_done conn data player room)).
  destruct (Nat.eqb (done_count_of (mark_done conn data player room)) 1).
  - fold (start_timer now (mark_done conn data player room)).
    destruct (check_turn_progression _ _ _) as [rooms3 fx3].
    eexists (_ :: _ ++ [_]). repeat split; auto. simpl.
    rewrite <- app_assoc. reflexivity.
  - destruct (check_turn_progression _ _ _) as [rooms3 fx3].
    eexists (_ ++ [_]). repeat split; auto. simpl.
    rewrite <- app_assoc. reflexivity.
Qed.

Lemma disconnect_loop_cases conn ids rooms :
  (forall k, In k ids -> Dict.get k rooms <> None) ->
  (disconnect_loop conn ids rooms = (rooms, [])
   /\ forall k r, In k ids -> Dict.get k rooms = Some r ->
                  Dict.get conn (players r) = None)
  \/ exists rid room player,
      In rid ids
      /\ Dict.get rid rooms = Some room
      /\ Dict.get conn (players room) = Some player
      /\ let room1 := set_players (Dict.del conn (players room)) room in
         disconnect_loop conn ids rooms
         = (if Nat.eqb (Dict.len (players room1)) 0
            then Dict.del rid (Dict.set rid room1 rooms)
            else Dict.set rid room1 rooms,
            [Emit (system_message (MsgLeft (island_name player))) rid]).
Proof.
  induction ids as [|rid ids IH]; simpl; intros R.
  - left. split; auto. intros k r [].
  - destruct (Dict.get rid rooms) as [room|] eqn:G.
    + destruct (Dict.get conn (players room)) as [player|] eqn:P.
      * right. exists rid, room, player. simpl.
        repeat split; auto.
        now destruct (Nat.eqb (Dict.len (Dict.del conn (players room))) 0).
      * assert (R' : forall k, In k ids -> Dict.get k rooms <> None) by auto.
        destruct (IH R') as [[E N]|(rid' & room' & player' & I & G' & P' & E)].
        -- left. split; auto.
           intros k r [<-|I] Gk; [congruence|eauto].
        -- right. exists rid', room', player'. auto.
    + exfalso. apply (R rid); auto.
Qed.

Lemma disconnect_cases conn rooms :
  (disconnect conn rooms = (rooms, [])
   /\ forall k r, Dict.get k rooms = Some r ->
                  Dict.get conn (players r) = None)
  \/ exists rid room player,
      Dict.get rid rooms = Some room
      /\ Dict.get conn (players room) = Some player
      /\ let room1 := set_players (Dict.del conn (players room)) room in
         disconnect conn rooms
         = (if Nat.eqb (Dict.len (players room1)) 0
            then Dict.del rid (Dict.set rid room1 rooms)
            else Dict.set rid room1 rooms,
            [Emit (system_message (MsgLeft (island_name player))) rid]).
Proof.
  unfold disconnect.
  destruct (disconnect_loop_cases conn (Dict.keys rooms) rooms)
    as [[E N]|(rid & room & player & I & G & P & E)].
  - intros k I. apply in_keys_get in I as [v I]. congruence.
  - left. split; auto. intros k r G. apply (N k r); auto.
    now apply get_in_keys in G.
  - right. exists rid, room, player. auto.
Qed.

(** ** Disconnection *)

(** C7. [disconnect] of a connection that is a player of no registered
    room changes nothing.  Otherwise it takes the connection out of one room
    that has it: that room is deleted from the registry when this leaves it
    without players and is kept, with the remaining players, when it does
    not; every other room stays as it is, so no room that still has a
    player is removed. *)
Theorem disconnect_removes_emptied_room conn rooms :
  ((forall k r, Dict.get k rooms = Some r ->
                Dict.get conn (players r) = None) ->
   disconnect conn rooms = (rooms, []))
  /\ ((disconnect conn rooms = (rooms, [])
       /\ forall k r, Dict.get k rooms = Some r ->
                      Dict.get conn (players r) = None)
      \/ exists rid room player,
          Dict.get rid rooms = Some room
          /\ Dict.get conn (players room) = Some player
          /\ let rooms' := fst (disconnect conn rooms) in
             let rest := Dict.del conn (players room) in
             Dict.get conn rest = None
             /\ (rest = [] -> Dict.get rid rooms' = None)
             /\ (rest <> [] ->
                 Dict.get rid rooms' = Some (set_players rest room))
             /\ (forall k, k <> rid -> Dict.get k rooms' = Dict.get k rooms)).
Proof.
  destruct (disconnect_cases conn rooms)
    as [[E N]|(rid & room & player & G & P & E)].
  - split; auto.
  - split.
    + intros N. rewrite (N _ _ G) in P. discriminate.
    + right. exists rid, room, player. simpl in *.
      rewrite E. split; [auto|]. split; [auto|].
      split; [apply get_del_same|].
      destruct (Dict.del conn (players room)) as [|kp rest] eqn:D; simpl.
      * split; [intros _; apply get_del_same|].
        split; [tauto|].
        intros k K. now rewrite get_del_other, get_set_other.
      * split; [discriminate|].
        split; [intros _; apply get_set_same|].
        intros k K. now rewrite get_set_other.
Qed.

Lemma get_app_left {V : Type} k (l1 l2 : Dict.t V) :
  In k (Dict.keys l1) -> Dict.get k (l1 ++ l2) = Dict.get k l1.
Proof.
  induction l1 as [|[k0 v0] l1 IH]; simpl; [tauto|].
  destruct (String.eqb k k0) eqn:E; auto.
  intros [->|I]; auto. now rewrite String.eqb_refl in E.
Qed.

Lemma get_in {V : Type} k (v : V) d : Dict.get k d = Some v -> In (k, v) d.
Proof.
  induction d as [|[k0 v0] d IH]; simpl; [discriminate|].
  destruct (String.eqb k k0) eqn:E; auto.
  apply String.eqb_eq in E. subst. intros [= ->]. auto.
Qed.

(** The loop passes over the rooms that do not have the connection. *)
Lemma disconnect_loop_skip conn ids1 ids2 rooms :
  (forall k, In k ids1 ->
             exists r, Dict.get k rooms = Some r
                       /\ Dict.get conn (players r) = None) ->
  disconnect_loop conn (ids1 ++ ids2) rooms = disconnect_loop conn ids2 rooms.
Proof.
  induction ids1 as [|k ids1 IH]; simpl; intros H; auto.
  destruct (H k) as (r & G & N); auto.
  rewrite G, N. auto.
Qed.

(** C10. In a registry whose first room having the connection among its
    players is [rid], [disconnect] takes the connection out of that room
    only (deleting the room if it is left empty): the rooms before it, which
    do not have the connection, and all the rooms after it, whether they
    have the connection or not, are left as they are. *)
Theorem disconnect_first_room_only conn l1 rid room l2 :
  NoDup (Dict.keys (l1 ++ (rid, room) :: l2)) ->
  Forall (fun kr => Dict.mem conn (players (snd kr)) = false) l1 ->
  Dict.mem conn (players room) = true ->
  fst (disconnect conn (l1 ++ (rid, room) :: l2))
  = l1
    ++ (let room1 := set_players (Dict.del conn (players room)) room in
        if Nat.eqb (Dict.len (players room1)) 0 then [] else [(rid, room1)])
    ++ l2.
Proof.
  intros ND F M.
  unfold Dict.keys in ND. rewrite map_app in ND. simpl in ND.
  apply NoDup_remove_2 in ND.
  assert (N1 : ~ In rid (Dict.keys l1))
    by (intros I; apply ND, in_or_app; auto).
  assert (N2 : ~ In rid (Dict.keys l2))
    by (intros I; apply ND, in_or_app; auto).
  unfold disconnect, Dict.keys. rewrite map_app. simpl.
  rewrite disconnect_loop_skip.
  - simpl. rewrite get_middle by exact N1.
    unfold Dict.mem in M.
    destruct (Dict.get conn (players room)) as [player|]; [|discriminate].
    simpl. rewrite set_middle by exact N1.
    destruct (Nat.eqb (Dict.len (Dict.del conn (players room))) 0); simpl.
    + now apply del_middle.
    + reflexivity.
  - intros k I. rewrite get_app_left by exact I.
    destruct (in_keys_get _ _ I) as [r G]. exists r. split; auto.
    apply get_in in G. rewrite Forall_forall in F.
    specialize (F _ G). unfold Dict.mem in F. simpl in F.
    now destruct (Dict.get conn (players r)).
Qed.

Lemma disconnect_first_room_only_witness :
  exists l1 rid room l2,
    rooms_three_rooms = l1 ++ (rid, room) :: l2
    /\ NoDup (Dict.keys (l1 ++ (rid, room) :: l2))
    /\ Forall (fun kr : string * Room =>
                 Dict.mem "A" (players (snd kr)) = false) l1
    /\ Dict.mem "A" (players room) = true
    /\ Dict.keys l1 = ["123AB"] /\ rid = "456CD"
    /\ (exists r, Dict.get "789EF" l2 = Some r
                  /\ Dict.mem "A" (players r) = true)
    /\ fst (disconnect "A" (l1 ++ (rid, room) :: l2)) = l1 ++ l2.
Proof.
  unfold rooms_three_rooms.
  eexists [_], _, _, [_].
  split; [reflexivity|].
  assert (ND : forall (a b c : Room),
             NoDup (Dict.keys ([("123AB", a)] ++ ("456CD", b)
                               :: [("789EF", c)]))).
  { intros. simpl. repeat constructor; simpl; intuition discriminate. }
  split; [apply ND|].
  split; [repeat constructor|].
  split; [reflexivity|].
  split; [reflexivity|].
  split; [reflexivity|].
  split; [eexists; split; reflexivity|].
  refine (disconnect_first_room_only "A" [_] "456CD" _ [_] (ND _ _ _) _ _).
  - repeat constructor.
  - reflexivity.
Defined.

(** ** Invariants of the reachable registries *)

Lemma run_reachable es : forall rooms rooms',
  reachable rooms -> run es rooms = Some rooms' -> reachable rooms'.
Proof.
  induction es as [|e es IH]; simpl; intros rooms rooms' R H.
  - now injection H as <-.
  - destruct (handle e rooms) as [[rooms1 fx]|] eqn:E; [|discriminate].
    eapply IH; [|exact H]. eapply reachable_step; eauto.
Qed.

(** Replacing the players of a room by no more players, of whom no more
    have finished, keeps the invariant. *)
Lemma room_inv_set_players k k' r ps :
  room_inv (k, r) ->
  Dict.len ps <= 7 ->
  count_done (Dict.values ps) <= done_count_of r ->
  room_inv (k', set_players ps r).
Proof.
  unfold room_inv, done_count_of. simpl.
  intros (M & L & T) Lps C. repeat split; auto.
  intros H. apply T. lia.
Qed.

Lemma room_inv_advanced k r : room_inv (k, r) -> room_inv (k, advanced r).
Proof.
  unfold room_inv. cbn [snd]. intros (M & L & T).
  rewrite done_count_advanced.
  unfold advanced. cbn [set_players players max_players].
  rewrite len_reset_all. repeat split; auto. lia.
Qed.

Lemma check_turn_progression_inv now rid rooms :
  Forall room_inv rooms ->
  Forall room_inv (fst (check_turn_progression now rid rooms)).
Proof.
  intros F.
  destruct (check_turn_progression_cases now rid rooms)
    as [E|(room & G & _ & _ & E)]; rewrite E; simpl; auto.
  apply forall_set; auto.
  apply room_inv_advanced. eapply get_forall; eauto.
Qed.

Lemma create_room_inv attempts conn data rooms rooms' fx :
  Forall room_inv rooms ->
  create_room attempts conn data rooms = Some (rooms', fx) ->
  Forall room_inv rooms'.
Proof.
  unfold create_room. intros F.
  destruct (fresh_room_id attempts rooms) as [rid|]; [|discriminate].
  rewrite get_set_same. intros [= <- _].
  apply forall_set; [apply forall_set; auto|].
  - unfold room_inv, done_count_of. simpl. repeat split; lia.
  - unfold room_inv, done_count_of. simpl. repeat split; lia.
Qed.

Lemma join_room_inv conn data rooms :
  Forall room_inv rooms -> Forall room_inv (fst (join_room conn data rooms)).
Proof.
  unfold join_room. intros F.
  destruct (roomId data) as [rid|]; auto.
  destruct (Dict.get rid rooms) as [room|] eqn:G; auto.
  pose proof (get_forall _ _ _ _ F G) as I.
  destruct (max_players room <=? Dict.len (players room))%nat eqn:C; auto.
  simpl. apply forall_set; auto.
  destruct I as (M & L & T). simpl in *.
  apply Nat.leb_gt in C.
  apply (room_inv_set_players rid); [repeat split; auto| |].
  - pose proof (len_set_le conn
      (Player_init conn (islandName data) (saveData data)) (players room)).
    lia.
  - unfold done_count_of.
    destruct (Dict.get conn (players room)) as [p|] eqn:P.
    + pose proof (count_set_present conn
        (Player_init conn (islandName data) (saveData data)) p _ P) as Q.
      unfold done_bit in Q. simpl in Q. lia.
    + rewrite (count_set_absent _ _ _ P). unfold done_bit. simpl. lia.
Qed.

Lemma update_state_inv conn data rooms :
  Forall room_inv rooms ->
  Forall room_inv (fst (update_state conn data rooms)).
Proof.
  unfold update_state. intros F.
  destruct (roomId data) as [rid|]; auto.
  destruct (Dict.get rid rooms) as [room|] eqn:G; auto.
  destruct (Dict.get conn (players room)) as [player|] eqn:P; auto.
  pose proof (get_forall _ _ _ _ F G) as I.
  simpl. apply forall_set; auto.
  apply (room_inv_set_players rid); auto.
  - rewrite (len_set_present _ _ _ _ P). apply I.
  - unfold done_count_of.
    pose proof (count_set_present conn
      (set_save_data (saveData data) player) player _ P) as Q.
    unfold done_bit in Q. simpl in Q. lia.
Qed.

(** The room of a submission, with the player marked and the timer started
    if the marked player is the only finished one, keeps the invariant. *)
Lemma room_inv_submitted now conn data rid room player :
  room_inv (rid, room) ->
  Dict.get conn (players room) = Some player ->
  let room1 := mark_done conn data player room in
  room_inv (rid, if Nat.eqb (done_count_of room1) 1
                 then start_timer now room1 else room1).
Proof.
  intros (M & L & T) P room1. simpl in *.
  assert (L1 : Dict.len (players room1) = Dict.len (players room))
    by (unfold room1, mark_done; simpl; eapply len_set_present; eauto).
  pose proof (count_set_present conn
    (set_is_turn_done true (set_save_data (saveData data) player))
    player _ P) as Q.
  change (count_done (Dict.values (Dict.set conn _ (players room))))
    with (done_count_of room1) in Q.
  change (done_bit (set_is_turn_done true _)) with 1 in Q.
  fold (done_count_of room) in Q.
  assert (D1 : 0 < done_count_of room1).
  { apply (count_done_pos conn
             (set_is_turn_done true (set_save_data (saveData data) player))).
    - apply get_set_same.
    - reflexivity. }
  assert (M1 : max_players room1 = 7) by exact M.
  assert (T1 : timer_active room1 = timer_active room) by reflexivity.
  clearbody room1.
  destruct (Nat.eqb (done_count_of room1) 1) eqn:C.
  - unfold room_inv, done_count_of, Dict.len in *. simpl.
    repeat split; auto. lia.
  - apply Nat.eqb_neq in C.
    unfold room_inv, done_count_of, Dict.len in *. simpl.
    split; [auto|]. split; [lia|].
    intros _. rewrite T1. apply T. unfold done_bit in Q.
    destruct (is_turn_done player); lia.
Qed.

Lemma submit_turn_action_inv now now_check conn data rooms :
  Forall room_inv rooms ->
  Forall room_inv (fst (submit_turn_action now now_check conn data rooms)).
Proof.
  intros F.
  destruct (submit_turn_action_cases now now_check conn data rooms)
    as [E|(rid & room & player & fx0 & _ & G & P & E)].
  - now rewrite E.
  - simpl in E. rewrite E. simpl.
    apply check_turn_progression_inv, forall_set; auto.
    apply room_inv_submitted; auto.
    eapply get_forall; eauto.
Qed.

Lemma disconnect_inv conn rooms :
  Forall room_inv rooms -> Forall room_inv (fst (disconnect conn rooms)).
Proof.
  intros F.
  destruct (disconnect_cases conn rooms)
    as [[E _]|(rid & room & player & G & P & E)].
  - now rewrite E.
  - simpl in E. rewrite E.
    pose proof (get_forall _ _ _ _ F G) as I.
    assert (F1 : Forall room_inv
                   (Dict.set rid
                      (set_players (Dict.del conn (players room)) room)
                      rooms)).
    { apply forall_set; auto.
      apply (room_inv_set_players rid); auto.
      - pose proof (len_del_le conn (players room)).
        destruct I as (_ & L & _). simpl in L. lia.
      - apply count_del_le. }
    destruct (Nat.eqb _ 0); simpl; auto using forall_del.
Qed.

Lemma handle_inv e rooms rooms' fx :
  Forall room_inv rooms ->
  handle e rooms = Some (rooms', fx) ->
  Forall room_inv rooms'.
Proof.
  intros F. destruct e; simpl; try (now apply create_room_inv);
    intros [= E]; apply (f_equal fst) in E; cbn [fst] in E; subst rooms'.
  - now apply join_room_inv.
  - now apply update_state_inv.
  - unfold get_player_list.
    destruct (roomId data) as [rid|]; auto.
    destruct (Dict.get rid rooms); auto.
  - now apply submit_turn_action_inv.
  - now apply disconnect_inv.
  - now apply check_turn_progression_inv.
Qed.

Lemma reachable_inv rooms : reachable rooms -> Forall room_inv rooms.
Proof.
  induction 1 as [|rooms e rooms' fx _ IH H]; [constructor|].
  eapply handle_inv; eauto.
Qed.

(** ** Joining a room *)

(** C6. [join_room] on a room id that is not registered reports
    [RoomNotFound]; on a room that has 7 players it reports [RoomFull] and
    leaves the registry, hence the membership, as it is; otherwise it makes
    the requester a player of the room and tells it so.  The membership of a
    room never exceeds 7. *)
Theorem join_room_capacity conn rid data rooms :
  reachable rooms ->
  roomId data = Some rid ->
  join_outcome conn rid data rooms (join_room conn data rooms).
Proof.
  intros R D.
  pose proof (reachable_inv _ R) as F.
  pose proof (join_room_inv conn data _ F) as F'.
  unfold join_outcome.
  destruct (join_room conn data rooms) as [rooms' fx] eqn:E.
  split; [|intros k r G; apply (get_forall _ _ _ _ F' G)].
  unfold join_room in E. rewrite D in E.
  destruct (Dict.get rid rooms) as [room|] eqn:G.
  - destruct (get_forall _ _ _ _ F G) as (M & _). simpl in M.
    rewrite M in E.
    destruct (7 <=? Dict.len (players room))%nat.
    + now injection E as <- <-.
    + injection E as <- <-. split; [|split; [reflexivity|]].
      * eexists. rewrite get_set_same. split; [reflexivity|]. simpl.
        split; [apply get_set_same|].
        split; [|apply len_set_le].
        intros k K. now apply get_set_other.
      * intros k K. now apply get_set_other.
  - now injection E as <- <-.
Qed.

Lemma join_room_capacity_witness :
  reachable rooms_full
  /\ roomId (data_room "123AB" "IslandH") = Some "123AB"
  /\ join_outcome "H" "123AB" (data_room "123AB" "IslandH") rooms_full
       (rooms_full, [Emit (error RoomFull) "H"]).
Proof.
  assert (R : reachable rooms_full).
  { apply (run_reachable events_full []); [constructor|reflexivity]. }
  split; [exact R|]. split; [reflexivity|].
  exact (join_room_capacity "H" "123AB" (data_room "123AB" "IslandH")
           rooms_full R eq_refl).
Defined.

(** ** The timer *)

Lemma get_set {V : Type} k k0 (v : V) d :
  Dict.get k (Dict.set k0 v d)
  = if String.eqb k k0 then Some v else Dict.get k d.
Proof.
  destruct (String.eqb_spec k k0) as [->|N].
  - apply get_set_same.
  - now apply get_set_other.
Qed.

Lemma get_del {V : Type} k k0 (d : Dict.t V) :
  Dict.get k (Dict.del k0 d)
  = if String.eqb k k0 then None else Dict.get k d.
Proof.
  destruct (String.eqb_spec k k0) as [->|N].
  - apply get_del_same.
  - now apply get_del_other.
Qed.

(** What one call of [check_turn_progression] does to a room whose timer
    is on: it leaves it on, or advances the turn. *)
Lemma check_turn_progression_timer now rid0 rooms rid room room' :
  Dict.get rid rooms = Some room ->
  Dict.get rid (fst (check_turn_progression now rid0 rooms)) = Some room' ->
  timer_active room = true ->
  timer_active room' = true
  \/ (turn room' = (turn room + 1)%Z
      /\ In (Emit (proceed_turn (turn room + 1)) rid)
            (snd (check_turn_progression now rid0 rooms))).
Proof.
  intros G G' T.
  destruct (check_turn_progression_cases now rid0 rooms)
    as [E|(room0 & G0 & _ & _ & E)]; rewrite E in *; simpl in *.
  - left. congruence.
  - rewrite get_set in G'.
    destruct (String.eqb_spec rid rid0) as [->|N].
    + right. injection G' as <-. rewrite G in G0. injection G0 as <-.
      simpl. auto.
    + left. congruence.
Qed.

(** No handler turns the timer of a room off except by advancing it. *)
Lemma handle_timer e rooms rooms' fx rid room room' :
  handle e rooms = Some (rooms', fx) ->
  Dict.get rid rooms = Some room ->
  Dict.get rid rooms' = Some room' ->
  timer_active room = true ->
  timer_active room' = true
  \/ (turn room' = (turn room + 1)%Z
      /\ In (Emit (proceed_turn (turn room + 1)) rid) fx).
Proof.
  intros H G G' T. destruct e; simpl in H.
  - (* create_room *)
    unfold create_room in H.
    pose proof (fresh_room_id_spec attempts rooms) as S.
    destruct (fresh_room_id attempts rooms) as [rid0|]; [|discriminate].
    destruct S as (_ & M & _). rewrite get_set_same in H.
    injection H as <- <-. rewrite !get_set in G'.
    destruct (String.eqb_spec rid rid0) as [->|N].
    + unfold Dict.mem in M. now rewrite G in M.
    + left. congruence.
  - (* join_room *)
    injection H as H. unfold join_room in H.
    destruct (roomId data) as [rid0|];
      [|injection H as <- <-; left; congruence].
    destruct (Dict.get rid0 rooms) as [room0|] eqn:G0;
      [|injection H as <- <-; left; congruence].
    destruct (max_players room0 <=? Dict.len (players room0))%nat;
      injection H as <- <-; [left; congruence|].
    rewrite get_set in G'.
    destruct (String.eqb_spec rid rid0) as [->|N]; left; [|congruence].
    injection G' as <-. simpl. congruence.
  - (* update_state *)
    injection H as H. unfold update_state in H.
    destruct (roomId data) as [rid0|];
      [|injection H as <- <-; left; congruence].
    destruct (Dict.get rid0 rooms) as [room0|] eqn:G0;
      [|injection H as <- <-; left; congruence].
    destruct (Dict.get conn (players room0));
      injection H as <- <-; [|left; congruence].
    rewrite get_set in G'.
    destruct (String.eqb_spec rid rid0) as [->|N]; left; [|congruence].
    injection G' as <-. simpl. congruence.
  - (* get_player_list *)
    injection H as H. unfold get_player_list in H.
    destruct (roomId data) as [rid0|];
      [|injection H as <- <-; left; congruence].
    destruct (Dict.get rid0 rooms);
      injection H as <- <-; left; congruence.
  - (* submit_turn_action *)
    injection H as H.
    destruct (submit_turn_action_cases now now_check conn data rooms)
      as [E|(rid0 & room0 & player & fx0 & _ & G0 & P & E)].
    + rewrite E in H. injection H as <- <-. left. congruence.
    + simpl in E. rewrite E in H. injection H as <- <-.
      remember (if Nat.eqb (done_count_of (mark_done conn data player room0)) 1
                then start_timer now (mark_done conn data player room0)
                else mark_done conn data player room0) as room2 eqn:R2.
      destruct (String.eqb_spec rid rid0) as [->|N].
      * assert (T2 : timer_active room2 = true).
        { rewrite G in G0. injection G0 as <-. subst room2.
          destruct (Nat.eqb _ 1); simpl; auto. }
        assert (U2 : turn room2 = turn room).
        { rewrite G in G0. injection G0 as <-. subst room2.
          destruct (Nat.eqb _ 1); reflexivity. }
        destruct (check_turn_progression_timer now_check rid0
                    (Dict.set rid0 room2 rooms) rid0 room2 room'
                    (get_set_same _ _ _) G' T2) as [L|[U I]]; auto.
        right. rewrite <- U2. split; auto. apply in_or_app. auto.
      * destruct (check_turn_progression_timer now_check rid0
                    (Dict.set rid0 room2 rooms) rid room room') as [L|[U I]];
          auto.
        -- now rewrite get_set_other.
        -- right. split; auto. apply in_or_app. auto.
  - (* disconnect *)
    injection H as H.
    destruct (disconnect_cases conn rooms)
      as [[E _]|(rid0 & room0 & player & G0 & P & E)].
    + rewrite E in H. injection H as <- <-. left. congruence.
    + simpl in E. rewrite E in H. injection H as <- <-. left.
      destruct (Nat.eqb _ 0).
      * rewrite get_del, get_set in G'.
        destruct (String.eqb_spec rid rid0) as [->|N]; congruence.
      * rewrite get_set in G'.
        destruct (String.eqb_spec rid rid0) as [->|N]; [|congruence].
        injection G' as <-. simpl. congruence.
  - (* check_turn_progression, from timer_loop *)
    injection H as H.
    pose proof (check_turn_progression_timer now rid0 rooms rid room room')
      as C.
    rewrite H in C. auto.
Qed.

(** C3, as the code has it.  In every reachable registry the timer of a
    room is on whenever one of its players has finished the turn, and no
    event turns the timer of a room off except by advancing its turn, which
    is announced with [proceed_turn]. *)
Theorem timer_on_while_someone_done rooms :
  reachable rooms ->
  (forall rid room,
      Dict.get rid rooms = Some room ->
      0 < done_count_of room -> timer_active room = true)
  /\ (forall e rooms' fx rid room room',
         handle e rooms = Some (rooms', fx) ->
         Dict.get rid rooms = Some room ->
         Dict.get rid rooms' = Some room' ->
         timer_active room = true ->
         timer_active room' = false ->
         turn room' = (turn room + 1)%Z
         /\ In (Emit (proceed_turn (turn room + 1)) rid) fx).
Proof.
  intros R. split.
  - intros rid room G.
    apply (get_forall _ _ _ _ (reachable_inv _ R) G).
  - intros e rooms' fx rid room room' H G G' T T'.
    destruct (handle_timer _ _ _ _ _ _ _ H G G' T) as [L|A]; [congruence|auto].
Qed.

Lemma timer_on_while_someone_done_witness :
  reachable rooms_pair_a_done
  /\ (forall rid room,
         Dict.get rid rooms_pair_a_done = Some room ->
         0 < done_count_of room -> timer_active room = true)
  /\ (forall e rooms' fx rid room room',
         handle e rooms_pair_a_done = Some (rooms', fx) ->
         Dict.get rid rooms_pair_a_done = Some room ->
         Dict.get rid rooms' = Some room' ->
         timer_active room = true ->
         timer_active room' = false ->
         turn room' = (turn room + 1)%Z
         /\ In (Emit (proceed_turn (turn room + 1)) rid) fx).
Proof.
  assert (R : reachable rooms_pair_a_done).
  { apply (run_reachable events_pair_a_done []); [constructor|reflexivity]. }
  split; [exact R|].
  exact (timer_on_while_someone_done rooms_pair_a_done R).
Defined.

(** C3 as stated fails: after A has finished the turn and left, B's room
    has its timer on although nobody in it has finished. *)
Lemma timer_on_with_nobody_done :
  reachable rooms_a_left
  /\ exists room,
      Dict.get "123AB" rooms_a_left = Some room
      /\ timer_active room = true
      /\ done_count_of room = 0
      /\ total_of room = 1.
Proof.
  split.
  - apply (run_reachable events_a_left []); [constructor|reflexivity].
  - eexists. split; [reflexivity|]. repeat split.
Qed.

(** ** Submitting a turn *)

(** C4, as the code has it.  When the only player of a room submits a turn,
    the turn advances within the handler and the timer is off afterwards;
    but the timer is first started: the deadline is set to [now + 180] and
    [timer_start] is broadcast before [proceed_turn]. *)
Theorem solo_submit_advances now now_check conn rid data rooms room player :
  roomId data = Some rid ->
  Dict.get rid rooms = Some room ->
  players room = [(conn, player)] ->
  solo_submit_outcome now conn rid data room player
    (submit_turn_action now now_check conn data rooms).
Proof.
  intros D G P. unfold submit_turn_action.
  rewrite D, G, P. simpl. rewrite String.eqb_refl. simpl.
  set (room2 := set_turn_deadline _ _).
  rewrite (check_turn_progression_eq now_check rid _ room2);
    [|apply get_set_same|discriminate].
  assert (A : advance_condition now_check room2 = true) by reflexivity.
  rewrite A. unfold solo_submit_outcome. split.
  - exists (advanced room2). rewrite get_set_same.
    split; [reflexivity|]. simpl. repeat split; auto.
  - simpl. destruct (outgoingActions data); reflexivity.
Qed.

Lemma solo_submit_advances_witness :
  exists room player,
    roomId (data_room "123AB" "IslandA") = Some "123AB"
    /\ Dict.get "123AB" rooms_solo = Some room
    /\ players room = [("A", player)]
    /\ solo_submit_outcome 0 "A" "123AB" (data_room "123AB" "IslandA")
         room player
         (submit_turn_action 0 0 "A" (data_room "123AB" "IslandA") rooms_solo).
Proof.
  eexists. eexists.
  split; [reflexivity|]. split; [reflexivity|]. split; [reflexivity|].
  apply solo_submit_advances; reflexivity.
Defined.

(** C4 as stated fails: the submission of the only player of room 123AB
    broadcasts [timer_start]. *)
Lemma solo_submit_starts_timer :
  Dict.keys
    (match Dict.get "123AB" rooms_solo with
     | Some room => players room
     | None => []
     end) = ["A"]
  /\ In (Emit (timer_start 180) "123AB")
        (snd (submit_turn_action 0 0 "A" (data_room "123AB" "IslandA")
                rooms_solo)).
Proof.
  split; [reflexivity|]. simpl. auto.
Qed.

(** C2 fails on the code.  A has finished the turn at time 0, which started
    the timer with deadline 180, and B has not.  A second submission of A,
    at time 100, leaves the count of finished players at 1, and the handler
    starts the timer again: the deadline moves to 280 and [timer_start] is
    broadcast once more. *)
Theorem resubmission_restarts_timer :
  (exists room player,
      Dict.get "123AB" rooms_pair_a_done = Some room
      /\ Dict.get "A" (players room) = Some player
      /\ is_turn_done player = true
      /\ done_count_of room = 1
      /\ timer_active room = true
      /\ turn_deadline room = 180%Z)
  /\ (let res := submit_turn_action 100 100 "A"
                   (data_room "123AB" "IslandA") rooms_pair_a_done in
      In (Emit (timer_start 280) "123AB") (snd res)
      /\ exists room',
          Dict.get "123AB" (fst res) = Some room'
          /\ done_count_of room' = 1
          /\ turn room' = 0%Z
          /\ turn_deadline room' = 280%Z).
Proof.
  split.
  - eexists. eexists. split; [reflexivity|]. split; [reflexivity|].
    repeat split.
  - simpl. split; [auto|].
    eexists. split; [reflexivity|]. repeat split.
Qed.

(** ** Unknown rooms *)

(** C5, as the code has it.  For a room id that is not registered,
    [join_room] reports [RoomNotFound] to the requester, while
    [submit_turn_action], [update_state] and [get_player_list] report
    nothing; none of them changes the registry. *)
Theorem unknown_room_changes_nothing now now_check conn rid data rooms :
  roomId data = Some rid ->
  Dict.get rid rooms = None ->
  join_room conn data rooms = (rooms, [Emit (error RoomNotFound) conn])
  /\ submit_turn_action now now_check conn data rooms = (rooms, [])
  /\ update_state conn data rooms = (rooms, [])
  /\ get_player_list conn data rooms = (rooms, []).
Proof.
  intros D G.
  unfold join_room, submit_turn_action, update_state, get_player_list.
  rewrite D, G. auto.
Qed.

Lemma unknown_room_changes_nothing_witness :
  roomId (data_room "999ZZ" "IslandA") = Some "999ZZ"
  /\ Dict.get "999ZZ" rooms_solo = None
  /\ join_room "A" (data_room "999ZZ" "IslandA") rooms_solo
     = (rooms_solo, [Emit (error RoomNotFound) "A"])
  /\ submit_turn_action 0 0 "A" (data_room "999ZZ" "IslandA") rooms_solo
     = (rooms_solo, [])
  /\ update_state "A" (data_room "999ZZ" "IslandA") rooms_solo
     = (rooms_solo, [])
  /\ get_player_list "A" (data_room "999ZZ" "IslandA") rooms_solo
     = (rooms_solo, []).
Proof.
  split; [reflexivity|]. split; [reflexivity|].
  apply (unknown_room_changes_nothing 0 0 "A" "999ZZ"); reflexivity.
Defined.

(** C5 as stated fails: a submission that names an unregistered room is
    answered with nothing, so no error reaches the requester. *)
Lemma unknown_room_submit_is_silent :
  Dict.get "999ZZ" rooms_solo = None
  /\ snd (submit_turn_action 0 0 "A" (data_room "999ZZ" "IslandA")
            rooms_solo) = []
  /\ ~ In (Emit (error RoomNotFound) "A")
          (snd (submit_turn_action 0 0 "A" (data_room "999ZZ" "IslandA")
                  rooms_solo)).
Proof.
  split; [reflexivity|]. split; [reflexivity|]. simpl. tauto.
Qed.

(** The rule the handler follows: the timer is started when, with the
    submitting player marked, exactly one player has finished; that is,
    when nobody had finished before, or when the submitting player was
    already the only one who had. *)
Lemma submit_starts_timer_iff now now_check conn rid data rooms room player :
  roomId data = Some rid ->
  Dict.get rid rooms = Some room ->
  Dict.get conn (players room) = Some player ->
  In (Emit (timer_start (now + 180)) rid)
     (snd (submit_turn_action now now_check conn data rooms))
  <-> (done_count_of room = 0
       \/ (done_count_of room = 1 /\ is_turn_done player = true)).
Proof.
  intros D G P.
  pose proof (count_set_present conn
    (set_is_turn_done true (set_save_data (saveData data) player))
    player _ P) as Q.
  change (done_bit (set_is_turn_done true _)) with 1 in Q.
  fold (done_count_of room) in Q.
  assert (B : done_bit player <= done_count_of room).
  { unfold done_bit. destruct (is_turn_done player) eqn:T; [|lia].
    apply (count_done_pos _ _ _ P T). }
  unfold submit_turn_action. rewrite D, G, P.
  set (n := count_done _) in *.
  assert (C : forall room2,
             ~ In (Emit (timer_start (now + 180)) rid)
                  (snd (check_turn_progression now_check rid
                          (Dict.set rid room2 rooms)))).
  { intros room2 I.
    destruct (check_turn_progression_cases now_check rid
                (Dict.set rid room2 rooms)) as [E|(r & _ & _ & _ & E)];
      rewrite E in I; simpl in I; [tauto|].
    destruct I as [I|[]]. discriminate. }
  destruct (Nat.eqb n 1) eqn:N1.
  - apply Nat.eqb_eq in N1.
    destruct (check_turn_progression _ _ _) as [rooms3 fx3].
    split.
    + intros _. unfold done_bit in *.
      destruct (is_turn_done player);
        [right; split; [lia|reflexivity] | left; lia].
    + intros _. simpl. auto.
  - apply Nat.eqb_neq in N1.
    match goal with
    | |- context [check_turn_progression ?t ?r ?s] =>
        pose proof (C (set_players
                         (Dict.set conn
                            (set_is_turn_done true
                               (set_save_data (saveData data) player))
                            (players room)) room)) as C';
        destruct (check_turn_progression t r s) as [rooms3 fx3]
    end.
    split.
    + intros I. exfalso. simpl in I, C'.
      apply in_app_or in I as [I|I].
      * destruct (outgoingActions data); simpl in I; [tauto|].
        destruct I as [I|[]]. discriminate.
      * destruct I as [I|I]; [discriminate|tauto].
    + unfold done_bit in *. intros [Z|[O T]].
      * destruct (is_turn_done player); lia.
      * rewrite T in Q. lia.
Qed.

(** ** The timer loop *)

(** A pass of [timer_loop] over the rooms is a sequence of timer checks,
    so it stays within the reachable registries. *)
Lemma timer_sweep_reachable clock : forall ids rooms,
  reachable rooms -> reachable (fst (timer_sweep clock ids rooms)).
Proof.
  induction clock as [|now clock IH]; intros [|rid ids] rooms R; simpl; auto.
  destruct (check_turn_progression now rid rooms) as [rooms1 fx1] eqn:E.
  assert (R1 : reachable rooms1).
  { apply (reachable_step rooms (EvTimerCheck now rid) rooms1 fx1 R).
    simpl. now rewrite E. }
  specialize (IH ids rooms1 R1).
  destruct (timer_sweep clock ids rooms1) as [rooms2 fx2]. exact IH.
Qed.

(** ** How an event changes a room *)

Lemma set_not_empty {V : Type} k (v : V) d : Dict.set k v d <> [].
Proof.
  destruct d as [|[k0 v0] d]; simpl; [discriminate|].
  destruct (String.eqb k k0); discriminate.
Qed.

Lemma join_room_cases conn data rooms :
  (fst (join_room conn data rooms) = rooms
   /\ forall rid room,
       roomId data = Some rid -> Dict.get rid rooms = Some room ->
       (max_players room <= Dict.len (players room))%nat)
  \/ exists rid room,
      roomId data = Some rid
      /\ Dict.get rid rooms = Some room
      /\ (Dict.len (players room) < max_players room)%nat
      /\ join_room conn data rooms
         = (Dict.set rid (joined_room conn data room) rooms,
            [EnterRoom conn rid;
             Emit (room_joined rid false) conn;
             Emit (system_message (MsgEntered (islandName data))) rid]).
Proof.
  unfold join_room.
  destruct (roomId data) as [rid|]; [|left; split; [auto|discriminate]].
  destruct (Dict.get rid rooms) as [room|] eqn:G;
    [|left; split; [auto|intros ? ? [= <-]; congruence]].
  destruct (max_players room <=? Dict.len (players room))%nat eqn:C.
  - left. split; auto. intros ? ? [= <-] E. rewrite G in E.
    injection E as <-. now apply Nat.leb_le.
  - right. exists rid, room. apply Nat.leb_gt in C. auto.
Qed.

Lemma update_state_cases conn data rooms :
  update_state conn data rooms = (rooms, [])
  \/ exists rid room player,
      roomId data = Some rid
      /\ Dict.get rid rooms = Some room
      /\ Dict.get conn (players room) = Some player
      /\ update_state conn data rooms
         = (Dict.set rid (updated_room conn data player room) rooms, []).
Proof.
  unfold update_state.
  destruct (roomId data) as [rid|]; auto.
  destruct (Dict.get rid rooms) as [room|] eqn:G; auto.
  destruct (Dict.get conn (players room)) as [player|] eqn:P; auto.
  right. exists rid, room, player. auto.
Qed.

Lemma get_player_list_same conn data rooms :
  fst (get_player_list conn data rooms) = rooms.
Proof.
  unfold get_player_list.
  destruct (roomId data) as [rid|]; auto.
  destruct (Dict.get rid rooms); auto.
Qed.

(** A submission by a player of a registered room: the registry and the
    messages. *)
Lemma submit_turn_action_registry now now_check conn data rooms :
  submit_turn_action now now_check conn data rooms = (rooms, [])
  \/ exists rid room player,
      roomId data = Some rid
      /\ Dict.get rid rooms = Some room
      /\ Dict.get conn (players room) = Some player
      /\ let room2 := submitted now conn data player room in
         (advance_condition now_check room2 = false
          /\ submit_turn_action now now_check conn data rooms
             = (Dict.set rid room2 rooms,
                submit_effects now conn rid data player room))
         \/ (advance_condition now_check room2 = true
             /\ submit_turn_action now now_check conn data rooms
                = (Dict.set rid (advanced room2) (Dict.set rid room2 rooms),
                   submit_effects now conn rid data player room
                   ++ [Emit (proceed_turn (turn room + 1)) rid])).
Proof.
  unfold submit_turn_action.
  destruct (roomId data) as [rid|]; auto.
  destruct (Dict.get rid rooms) as [room|] eqn:G; auto.
  destruct (Dict.get conn (players room)) as [player|] eqn:P; auto.
  right. exists rid, room, player.
  repeat (split; [assumption || reflexivity|]).
  cbv zeta. unfold submit_effects, submitted.
  fold (mark_done conn data player room).
  fold (done_count_of (mark_done conn data player room)).
  set (room1 := mark_done conn data player room).
  assert (NE1 : players room1 <> []) by apply set_not_empty.
  destruct (Nat.eqb (done_count_of room1) 1).
  - fold (start_timer now room1).
    rewrite (check_turn_progression_eq now_check rid _ (start_timer now room1)
               (get_set_same _ _ _) NE1).
    destruct (advance_condition now_check (start_timer now room1));
      [right|left]; (split; [reflexivity|]); f_equal;
      first [ rewrite <- !app_assoc; reflexivity
            | rewrite app_nil_r; reflexivity ].
  - rewrite (check_turn_progression_eq now_check rid _ room1
               (get_set_same _ _ _) NE1).
    destruct (advance_condition now_check room1);
      [right|left]; (split; [reflexivity|]); f_equal;
      first [ rewrite <- !app_assoc; reflexivity
            | rewrite app_nil_r; reflexivity ].
Qed.

Lemma handle_room_change e rooms rooms' fx rid room' :
  handle e rooms = Some (rooms', fx) ->
  Dict.get rid rooms' = Some room' ->
  (exists room,
      Dict.get rid rooms = Some room /\ room_change rid fx room room')
  \/ (Dict.get rid rooms = None
      /\ exists attempts conn data,
          e = EvCreateRoom attempts conn data
          /\ room' = created_room rid conn data).
Proof.
  intros H G'. destruct e; simpl in H.
  - (* create_room *)
    unfold create_room in H.
    pose proof (fresh_room_id_spec attempts rooms) as S.
    destruct (fresh_room_id attempts rooms) as [rid0|]; [|discriminate].
    destruct S as (_ & M & _). rewrite get_set_same in H.
    injection H as <- <-. rewrite !get_set in G'.
    destruct (String.eqb_spec rid rid0) as [->|N].
    + right. injection G' as <-. split.
      * unfold Dict.mem in M. now destruct (Dict.get rid0 rooms).
      * exists attempts, conn, data. auto.
    + left. exists room'. split; [auto|constructor].
  - (* join_room *)
    injection H as H. apply (f_equal fst) in H. cbn [fst] in H. subst rooms'.
    destruct (join_room_cases conn data rooms)
      as [[E _]|(rid0 & room0 & _ & G0 & L & E)].
    + rewrite E in G'. left. exists room'. split; [auto|constructor].
    + rewrite E in G'. cbn [fst] in G'. rewrite get_set in G'.
      destruct (String.eqb_spec rid rid0) as [->|N]; left.
      * injection G' as <-. exists room0. split; [auto|now constructor].
      * exists room'. split; [auto|constructor].
  - (* update_state *)
    injection H as H. apply (f_equal fst) in H. cbn [fst] in H. subst rooms'.
    destruct (update_state_cases conn data rooms)
      as [E|(rid0 & room0 & player & _ & G0 & P & E)].
    + rewrite E in G'. left. exists room'. split; [auto|constructor].
    + rewrite E in G'. cbn [fst] in G'. rewrite get_set in G'.
      destruct (String.eqb_spec rid rid0) as [->|N]; left.
      * injection G' as <-. exists room0. split; [auto|now constructor].
      * exists room'. split; [auto|constructor].
  - (* get_player_list *)
    injection H as H. apply (f_equal fst) in H. cbn [fst] in H. subst rooms'.
    rewrite get_player_list_same in G'.
    left. exists room'. split; [auto|constructor].
  - (* submit_turn_action *)
    injection H as H.
    destruct (submit_turn_action_registry now now_check conn data rooms)
      as [E|(rid0 & room0 & player & _ & G0 & P & [[A E]|[A E]])];
      rewrite E in H; injection H as <- <-.
    + left. exists room'. split; [auto|constructor].
    + rewrite get_set in G'.
      destruct (String.eqb_spec rid rid0) as [->|N]; left.
      * injection G' as <-. exists room0. split; [auto|now constructor].
      * exists room'. split; [auto|constructor].
    + rewrite !get_set in G'.
      destruct (String.eqb_spec rid rid0) as [->|N]; left.
      * injection G' as <-. exists room0. split; [auto|].
        apply (rc_submit_advance _ _ _ now now_check); auto.
        apply in_or_app. right. left. reflexivity.
      * exists room'. split; [auto|constructor].
  - (* disconnect *)
    injection H as H. apply (f_equal fst) in H. cbn [fst] in H. subst rooms'.
    destruct (disconnect_cases conn rooms)
      as [[E _]|(rid0 & room0 & player & G0 & P & E)].
    + rewrite E in G'. left. exists room'. split; [auto|constructor].
    + cbv zeta in E. rewrite E in G'. cbn [fst] in G'.
      fold (left_room conn room0) in G'.
      destruct (Nat.eqb (Dict.len (players (left_room conn room0))) 0) eqn:Z.
      * rewrite get_del, get_set in G'.
        destruct (String.eqb_spec rid rid0) as [->|N]; [discriminate|].
        left. exists room'. split; [auto|constructor].
      * rewrite get_set in G'.
        destruct (String.eqb_spec rid rid0) as [->|N]; left.
        -- injection G' as <-. exists room0. split; [auto|].
           apply (rc_leave _ _ _ _ player); auto.
           intros Z'. unfold left_room in Z. simpl in Z.
           rewrite Z' in Z. discriminate.
        -- exists room'. split; [auto|constructor].
  - (* check_turn_progression, from timer_loop *)
    injection H as H.
    destruct (check_turn_progression_cases now rid0 rooms)
      as [E|(room0 & G0 & NE & A & E)]; rewrite E in H; injection H as <- <-.
    + left. exists room'. split; [auto|constructor].
    + rewrite get_set in G'.
      destruct (String.eqb_spec rid rid0) as [->|N]; left.
      * injection G' as <-. exists room0. split; [auto|].
        apply (rc_advance _ _ _ now); simpl; auto.
      * exists room'. split; [auto|constructor].
Qed.

Lemma get_reset_all k ps :
  Dict.get k (reset_all ps)
  = option_map (set_is_turn_done false) (Dict.get k ps).
Proof.
  induction ps as [|[k0 p0] ps IH]; simpl; auto.
  destruct (String.eqb k k0); auto.
Qed.

Lemma get_del_some {V : Type} k k0 (v : V) d :
  Dict.get k (Dict.del k0 d) = Some v -> Dict.get k d = Some v.
Proof.
  rewrite get_del. destruct (String.eqb k k0); [discriminate|auto].
Qed.

Lemma players_submitted now conn data player room :
  players (submitted now conn data player room)
  = Dict.set conn
      (set_is_turn_done true (set_save_data (saveData data) player))
      (players room).
Proof.
  unfold submitted. now destruct (Nat.eqb _ 1).
Qed.

Lemma turn_submitted now conn data player room :
  turn (submitted now conn data player room) = turn room.
Proof.
  unfold submitted. now destruct (Nat.eqb _ 1).
Qed.

Lemma room_id_submitted now conn data player room :
  room_id (submitted now conn data player room) = room_id room.
Proof.
  unfold submitted. now destruct (Nat.eqb _ 1).
Qed.

(** Storing under [conn] a player whose [sid] is [conn] keeps a room
    well formed. *)
Lemma room_wf_set_player rid room conn p :
  room_wf rid room ->
  sid p = conn ->
  room_wf rid (set_players (Dict.set conn p (players room)) room).
Proof.
  intros (I & NE & ND & S & T) Sp. unfold room_wf. simpl.
  split; [auto|]. split; [apply set_not_empty|].
  split; [now apply nodup_keys_set|]. split; [|auto].
  intros k q. rewrite get_set.
  destruct (String.eqb_spec k conn) as [->|N]; [|apply S].
  now intros [= <-].
Qed.

Lemma room_wf_advanced rid room : room_wf rid room -> room_wf rid (advanced room).
Proof.
  intros (I & NE & ND & S & T). unfold room_wf, advanced. simpl.
  split; [auto|]. split.
  { destruct (players room); [tauto|discriminate]. }
  split; [now rewrite keys_reset_all|]. split; [|lia].
  intros k q. rewrite get_reset_all.
  destruct (Dict.get k (players room)) as [p|] eqn:G; [|discriminate].
  intros [= <-]. simpl. eauto.
Qed.

Lemma room_wf_submitted rid room now conn data player :
  room_wf rid room ->
  Dict.get conn (players room) = Some player ->
  room_wf rid (submitted now conn data player room).
Proof.
  intros W P.
  pose proof (room_wf_set_player rid room conn
    (set_is_turn_done true (set_save_data (saveData data) player)) W) as W1.
  destruct W as (_ & _ & _ & S & _). specialize (W1 (S _ _ P)).
  unfold room_wf in *.
  rewrite players_submitted, turn_submitted, room_id_submitted.
  exact W1.
Qed.

Lemma room_change_wf rid fx room room' :
  room_wf rid room -> room_change rid fx room room' -> room_wf rid room'.
Proof.
  intros W C. destruct C.
  - exact W.
  - now apply room_wf_set_player.
  - apply room_wf_set_player; auto.
    destruct W as (_ & _ & _ & S & _). simpl. eauto.
  - now apply room_wf_submitted.
  - now apply room_wf_advanced, room_wf_submitted.
  - now apply room_wf_advanced.
  - destruct W as (I & NE & ND & S & T). unfold room_wf, left_room. simpl.
    repeat split; auto using nodup_keys_del.
    intros k q G. apply get_del_some in G. eauto.
Qed.

Lemma created_room_wf rid conn data : room_wf rid (created_room rid conn data).
Proof.
  unfold room_wf, created_room. simpl.
  split; [auto|]. split; [discriminate|].
  split; [repeat constructor; simpl; tauto|]. split; [|lia].
  intros k p. destruct (String.eqb_spec k conn) as [->|N]; [|discriminate].
  now intros [= <-].
Qed.

Lemma handle_nodup e rooms rooms' fx :
  NoDup (Dict.keys rooms) ->
  handle e rooms = Some (rooms', fx) ->
  NoDup (Dict.keys rooms').
Proof.
  intros ND H. destruct e; simpl in H.
  - unfold create_room in H.
    destruct (fresh_room_id attempts rooms) as [rid0|]; [|discriminate].
    rewrite get_set_same in H. injection H as <- _.
    auto using nodup_keys_set.
  - injection H as H. apply (f_equal fst) in H. cbn [fst] in H. subst rooms'.
    destruct (join_room_cases conn data rooms)
      as [[E _]|(rid0 & room0 & _ & _ & _ & E)]; rewrite E; cbn [fst];
      auto using nodup_keys_set.
  - injection H as H. apply (f_equal fst) in H. cbn [fst] in H. subst rooms'.
    destruct (update_state_cases conn data rooms)
      as [E|(rid0 & room0 & player & _ & _ & _ & E)]; rewrite E; cbn [fst];
      auto using nodup_keys_set.
  - injection H as H. apply (f_equal fst) in H. cbn [fst] in H. subst rooms'.
    now rewrite get_player_list_same.
  - injection H as H. apply (f_equal fst) in H. cbn [fst] in H. subst rooms'.
    destruct (submit_turn_action_registry now now_check conn data rooms)
      as [E|(rid0 & room0 & player & _ & _ & _ & [[_ E]|[_ E]])];
      rewrite E; cbn [fst]; auto using nodup_keys_set.
  - injection H as H. apply (f_equal fst) in H. cbn [fst] in H. subst rooms'.
    destruct (disconnect_cases conn rooms)
      as [[E _]|(rid0 & room0 & player & _ & _ & E)].
    + now rewrite E.
    + cbv zeta in E. rewrite E. cbn [fst].
      destruct (Nat.eqb _ 0); auto using nodup_keys_set, nodup_keys_del.
  - injection H as H. apply (f_equal fst) in H. cbn [fst] in H. subst rooms'.
    destruct (check_turn_progression_cases now rid rooms)
      as [E|(room0 & _ & _ & _ & E)]; rewrite E; cbn [fst];
      auto using nodup_keys_set.
Qed.

Lemma reachable_wf rooms :
  reachable rooms ->
  NoDup (Dict.keys rooms)
  /\ forall rid room, Dict.get rid rooms = Some room -> room_wf rid room.
Proof.
  induction 1 as [|rooms e rooms' fx _ [ND W] H].
  - split; [constructor|discriminate].
  - split; [eapply handle_nodup; eauto|].
    intros rid room' G'.
    destruct (handle_room_change _ _ _ _ _ _ H G')
      as [(room & G & C)|(_ & attempts & conn & data & _ & ->)].
    + eapply room_change_wf; eauto.
    + apply created_room_wf.
Qed.

(** ** Well-formed registries *)

(** X1. Every room of a reachable registry has at least one player, and
    the number of its players who have finished is at most the number of
    its players. *)
Theorem reachable_rooms_have_players rooms rid room :
  reachable rooms ->
  Dict.get rid rooms = Some room ->
  players room <> []
  /\ 1 <= total_of room
  /\ done_count_of room <= total_of room.
Proof.
  intros R G.
  destruct (reachable_wf _ R) as [_ W].
  destruct (W _ _ G) as (_ & NE & _).
  split; [exact NE|]. split.
  - unfold total_of, Dict.len. destruct (players room); [tauto|simpl; lia].
  - unfold done_count_of, total_of. rewrite <- length_values.
    apply count_done_le_length.
Qed.

Lemma reachable_rooms_have_players_witness :
  exists room,
    reachable rooms_a_left
    /\ Dict.get "123AB" rooms_a_left = Some room
    /\ players room <> []
    /\ 1 <= total_of room
    /\ done_count_of room <= total_of room.
Proof.
  assert (R : reachable rooms_a_left).
  { apply (run_reachable events_a_left []); [constructor|reflexivity]. }
  eexists. split; [exact R|]. split; [reflexivity|].
  exact (reachable_rooms_have_players rooms_a_left "123AB" _ R eq_refl).
Defined.

(** X2. In a reachable registry every room is stored under its own
    [room_id], every player of a room is stored under its own [sid], and
    the turn of a room is not negative. *)
Theorem reachable_keys_are_ids rooms rid room :
  reachable rooms ->
  Dict.get rid rooms = Some room ->
  room_id room = rid
  /\ (forall conn player,
         Dict.get conn (players room) = Some player -> sid player = conn)
  /\ (0 <= turn room)%Z.
Proof.
  intros R G.
  destruct (reachable_wf _ R) as [_ W].
  destruct (W _ _ G) as (I & _ & _ & S & T). auto.
Qed.

Lemma reachable_keys_are_ids_witness :
  exists room,
    reachable rooms_three_rooms
    /\ Dict.get "789EF" rooms_three_rooms = Some room
    /\ room_id room = "789EF"
    /\ (forall conn player,
           Dict.get conn (players room) = Some player -> sid player = conn)
    /\ (0 <= turn room)%Z.
Proof.
  assert (R : reachable rooms_three_rooms).
  { apply (run_reachable events_three_rooms []); [constructor|reflexivity]. }
  eexists. split; [exact R|]. split; [reflexivity|].
  exact (reachable_keys_are_ids rooms_three_rooms "789EF" _ R eq_refl).
Defined.

(** ** Creating a room *)

Lemma set_absent {V : Type} k (v : V) d :
  Dict.get k d = None -> Dict.set k v d = d ++ [(k, v)].
Proof.
  induction d as [|[k0 v0] d IH]; simpl; auto.
  destruct (String.eqb k k0); [discriminate|].
  intros G. now rewrite IH.
Qed.

(** X3. [create_room] puts the new room after all the registered rooms,
    which stay as they are; the new room is at turn 0 with the timer off
    and has the creator, not yet finished, as its only player. *)
Theorem create_room_appends attempts conn data rooms rooms' fx :
  create_room attempts conn data rooms = Some (rooms', fx) ->
  exists rid,
    rooms' = rooms ++ [(rid, created_room rid conn data)]
    /\ Dict.get rid rooms = None
    /\ created_room rid conn data
       = mkRoom rid [(conn, mkPlayer conn (islandName data) (saveData data)
                                     false [])]
                0 7 0 false.
Proof.
  unfold create_room.
  pose proof (fresh_room_id_spec attempts rooms) as S.
  destruct (fresh_room_id attempts rooms) as [rid|]; [|discriminate].
  destruct S as (_ & M & _).
  assert (G : Dict.get rid rooms = None).
  { unfold Dict.mem in M. now destruct (Dict.get rid rooms). }
  rewrite get_set_same. intros [= <- _].
  exists rid. split; [|split; [exact G|reflexivity]].
  rewrite (set_absent _ _ _ G).
  apply set_middle. now apply get_none_not_in.
Qed.

Lemma create_room_appends_witness :
  exists rooms' fx rid,
    create_room [draws_123AB; draws_456CD] "B" (data_create "IslandB")
                rooms_solo = Some (rooms', fx)
    /\ rooms' = rooms_solo
                ++ [(rid, created_room rid "B" (data_create "IslandB"))]
    /\ rid = "456CD".
Proof.
  eexists. eexists.
  destruct (create_room_appends [draws_123AB; draws_456CD] "B"
              (data_create "IslandB") rooms_solo _ _ eq_refl)
    as (rid & E & G & _).
  exists rid. split; [reflexivity|]. split; [exact E|].
  apply (f_equal (fun l => map fst (tl l))) in E. simpl in E.
  now injection E as <-.
Defined.

(** ** The space of room identifiers *)

Lemma is_digit_choice a : is_digit a = true -> exists d, choice digits d = a.
Proof.
  intros H. exists (nat_of_ascii a - 48).
  destruct a as [[] [] [] [] [] [] [] []];
    first [discriminate H | reflexivity].
Qed.

Lemma is_upper_choice a :
  is_upper a = true -> exists d, choice ascii_uppercase d = a.
Proof.
  intros H. exists (nat_of_ascii a - 65).
  destruct a as [[] [] [] [] [] [] [] []];
    first [discriminate H | reflexivity].
Qed.

(** X4. The strings [generate_room_id] can return are exactly those made of
    three decimal digits followed by two upper-case letters. *)
Theorem generate_room_id_range s :
  room_id_format s = true <-> exists r, generate_room_id r = s.
Proof.
  split.
  - destruct s as [|a [|b [|c [|d [|e [|f s]]]]]]; try discriminate.
    simpl. intros H.
    apply andb_prop in H as [H He]. apply andb_prop in H as [H Hd].
    apply andb_prop in H as [H Hc]. apply andb_prop in H as [Ha Hb].
    destruct (is_digit_choice a Ha) as [d1 <-].
    destruct (is_digit_choice b Hb) as [d2 <-].
    destruct (is_digit_choice c Hc) as [d3 <-].
    destruct (is_upper_choice d Hd) as [c1 <-].
    destruct (is_upper_choice e He) as [c2 <-].
    exists ((d1, d2, d3), (c1, c2)). reflexivity.
  - intros [r <-]. apply generate_room_id_format.
Qed.

(** ** Turns and their announcement *)

Lemma room_change_turn rid fx room room' :
  room_change rid fx room room' ->
  turn room' = turn room
  \/ (turn room' = (turn room + 1)%Z
      /\ timer_active room' = false
      /\ done_count_of room' = 0
      /\ In (Emit (proceed_turn (turn room')) rid) fx).
Proof.
  destruct 1; try (left; reflexivity).
  - left. apply turn_submitted.
  - right. rewrite done_count_advanced. simpl.
    rewrite turn_submitted. auto.
  - right. rewrite done_count_advanced. simpl. auto.
Qed.

(** X5. An event leaves the turn of a room as it is or adds exactly one
    to it; when it adds one, the room's timer is off and no player of it is
    marked as finished afterwards, and [proceed_turn] with the new turn is
    among the messages sent to the room. *)
Theorem turn_changes_are_announced e rooms rooms' fx rid room room' :
  handle e rooms = Some (rooms', fx) ->
  Dict.get rid rooms = Some room ->
  Dict.get rid rooms' = Some room' ->
  turn room' = turn room
  \/ (turn room' = (turn room + 1)%Z
      /\ timer_active room' = false
      /\ done_count_of room' = 0
      /\ In (Emit (proceed_turn (turn room')) rid) fx).
Proof.
  intros H G G'.
  destruct (handle_room_change _ _ _ _ _ _ H G')
    as [(room0 & G0 & C)|(N & _)]; [|congruence].
  rewrite G in G0. injection G0 as <-.
  exact (room_change_turn _ _ _ _ C).
Qed.

Lemma turn_changes_are_announced_witness :
  exists room room' rooms' fx,
    handle (EvTimerCheck 200 "123AB") rooms_pair_a_done = Some (rooms', fx)
    /\ Dict.get "123AB" rooms_pair_a_done = Some room
    /\ Dict.get "123AB" rooms' = Some room'
    /\ turn room = 0%Z /\ turn room' = 1%Z
    /\ (turn room' = turn room
        \/ (turn room' = (turn room + 1)%Z
            /\ timer_active room' = false
            /\ done_count_of room' = 0
            /\ In (Emit (proceed_turn (turn room')) "123AB") fx)).
Proof.
  eexists. eexists. eexists. eexists.
  split; [reflexivity|]. split; [reflexivity|]. split; [reflexivity|].
  split; [reflexivity|]. split; [reflexivity|].
  exact (turn_changes_are_announced (EvTimerCheck 200 "123AB")
           rooms_pair_a_done _ _ "123AB" _ _ eq_refl eq_refl eq_refl).
Defined.

Lemma submit_effects_kinds now conn rid data player room x :
  In x (submit_effects now conn rid data player room) ->
  (exists d, x = Emit (timer_start d) rid)
  \/ (exists a f, x = Emit (receive_external_actions a f) rid)
  \/ (exists m, x = Emit (system_message m) rid).
Proof.
  unfold submit_effects. intros I.
  apply in_app_or in I as [I|I]; [|apply in_app_or in I as [I|I]].
  - destruct (Nat.eqb _ 1); simpl in I; [|tauto].
    destruct I as [<-|[]]. eauto.
  - destruct (outgoingActions data); simpl in I; [tauto|].
    destruct I as [<-|[]]. eauto.
  - destruct I as [<-|[]]. eauto.
Qed.

(** X6. A [proceed_turn] message is sent only to a registered room whose
    turn the event has just raised by one, and it carries that room's new
    turn. *)
Theorem proceed_turn_means_advance e rooms rooms' fx t rid :
  handle e rooms = Some (rooms', fx) ->
  In (Emit (proceed_turn t) rid) fx ->
  exists room room',
    Dict.get rid rooms = Some room
    /\ Dict.get rid rooms' = Some room'
    /\ turn room' = (turn room + 1)%Z
    /\ t = turn room'.
Proof.
  intros H I. destruct e; simpl in H.
  - unfold create_room in H.
    destruct (fresh_room_id attempts rooms); [|discriminate].
    injection H as _ <-.
    destruct I as [I|[I|[]]]; discriminate.
  - injection H as H. unfold join_room in H.
    destruct (roomId data); [|injection H as _ <-; destruct I].
    destruct (Dict.get s rooms); [|injection H as _ <-];
      [|destruct I as [I|[]]; discriminate].
    destruct (max_players r <=? Dict.len (players r))%nat;
      injection H as _ <-.
    + destruct I as [I|[]]; discriminate.
    + destruct I as [I|[I|[I|[]]]]; discriminate.
  - injection H as H.
    destruct (update_state_cases conn data rooms)
      as [E|(? & ? & ? & _ & _ & _ & E)]; rewrite E in H;
      injection H as _ <-; destruct I.
  - injection H as H. unfold get_player_list in H.
    destruct (roomId data); [|injection H as _ <-; destruct I].
    destruct (Dict.get s rooms); injection H as _ <-; [|destruct I].
    destruct I as [I|[]]; discriminate.
  - injection H as H.
    destruct (submit_turn_action_registry now now_check conn data rooms)
      as [E|(rid0 & room0 & player & _ & G0 & P & [[A E]|[A E]])];
      rewrite E in H; injection H as <- <-.
    + destruct I.
    + apply submit_effects_kinds in I
        as [[? I]|[(? & ? & I)|[? I]]]; discriminate.
    + apply in_app_or in I as [I|I].
      * apply submit_effects_kinds in I
          as [[? I]|[(? & ? & I)|[? I]]]; discriminate.
      * destruct I as [I|[]]. injection I as <- <-.
        exists room0, (advanced (submitted now conn data player room0)).
        rewrite get_set_same. simpl. rewrite turn_submitted. auto.
  - injection H as H.
    destruct (disconnect_cases conn rooms)
      as [[E _]|(? & ? & ? & _ & _ & E)]; cbv zeta in E; rewrite E in H;
      injection H as _ <-; [destruct I|].
    destruct I as [I|[]]; discriminate.
  - injection H as H.
    destruct (check_turn_progression_cases now rid0 rooms)
      as [E|(room0 & G0 & _ & _ & E)]; rewrite E in H;
      injection H as <- <-; [destruct I|].
    destruct I as [I|[]]. injection I as <- <-.
    exists room0, (advanced room0). rewrite get_set_same. auto.
Qed.

Lemma proceed_turn_means_advance_witness :
  exists rooms' fx room room',
    handle (EvSubmitTurnAction 50 50 "B" (data_room "123AB" "IslandB"))
           rooms_pair_a_done = Some (rooms', fx)
    /\ In (Emit (proceed_turn 1) "123AB") fx
    /\ Dict.get "123AB" rooms_pair_a_done = Some room
    /\ Dict.get "123AB" rooms' = Some room'
    /\ turn room' = (turn room + 1)%Z
    /\ 1%Z = turn room'.
Proof.
  eexists. eexists.
  assert (I : In (Emit (proceed_turn 1) "123AB")
                 (snd (submit_turn_action 50 50 "B"
                         (data_room "123AB" "IslandB") rooms_pair_a_done))).
  { simpl. auto. }
  destruct (proceed_turn_means_advance
              (EvSubmitTurnAction 50 50 "B" (data_room "123AB" "IslandB"))
              rooms_pair_a_done _ _ 1%Z "123AB" eq_refl I)
    as (room & room' & G & G' & T & E).
  exists room, room'.
  split; [reflexivity|]. split; [exact I|].
  split; [exact G|]. split; [exact G'|]. split; [exact T|exact E].
Defined.

(** X7. An [error] message comes from [join_room] only: it is the single
    effect of the event, it goes to the connection that asked to join, and
    the registry is left as it was. *)
Theorem error_means_rejected_join e rooms rooms' fx m target :
  handle e rooms = Some (rooms', fx) ->
  In (Emit (error m) target) fx ->
  rooms' = rooms
  /\ fx = [Emit (error m) target]
  /\ exists data, e = EvJoinRoom target data.
Proof.
  intros H I. destruct e; simpl in H.
  - unfold create_room in H.
    destruct (fresh_room_id attempts rooms); [|discriminate].
    injection H as _ <-.
    destruct I as [I|[I|[]]]; discriminate.
  - injection H as H. unfold join_room in H.
    destruct (roomId data); [|injection H as _ <-; destruct I].
    destruct (Dict.get s rooms); [|injection H as <- <-].
    + destruct (max_players r <=? Dict.len (players r))%nat;
        injection H as <- <-.
      * destruct I as [I|[]]. injection I as <- <-. eauto.
      * destruct I as [I|[I|[I|[]]]]; discriminate.
    + destruct I as [I|[]]. injection I as <- <-. eauto.
  - injection H as H.
    destruct (update_state_cases conn data rooms)
      as [E|(? & ? & ? & _ & _ & _ & E)]; rewrite E in H;
      injection H as _ <-; destruct I.
  - injection H as H. unfold get_player_list in H.
    destruct (roomId data); [|injection H as _ <-; destruct I].
    destruct (Dict.get s rooms); injection H as _ <-; [|destruct I].
    destruct I as [I|[]]; discriminate.
  - injection H as H.
    destruct (submit_turn_action_registry now now_check conn data rooms)
      as [E|(rid0 & room0 & player & _ & G0 & P & [[A E]|[A E]])];
      rewrite E in H; injection H as <- <-.
    + destruct I.
    + apply submit_effects_kinds in I
        as [[? I]|[(? & ? & I)|[? I]]]; discriminate.
    + apply in_app_or in I as [I|I].
      * apply submit_effects_kinds in I
          as [[? I]|[(? & ? & I)|[? I]]]; discriminate.
      * destruct I as [I|[]]. discriminate.
  - injection H as H.
    destruct (disconnect_cases conn rooms)
      as [[E _]|(? & ? & ? & _ & _ & E)]; cbv zeta in E; rewrite E in H;
      injection H as _ <-; [destruct I|].
    destruct I as [I|[]]; discriminate.
  - injection H as H.
    destruct (check_turn_progression_cases now rid rooms)
      as [E|(room0 & G0 & _ & _ & E)]; rewrite E in H;
      injection H as <- <-; [destruct I|].
    destruct I as [I|[]]. discriminate.
Qed.

Lemma error_means_rejected_join_witness :
  exists rooms' fx,
    handle (EvJoinRoom "H" (data_room "123AB" "IslandH")) rooms_full
    = Some (rooms', fx)
    /\ In (Emit (error RoomFull) "H") fx
    /\ rooms' = rooms_full
    /\ fx = [Emit (error RoomFull) "H"]
    /\ exists data, EvJoinRoom "H" (data_room "123AB" "IslandH")
                    = EvJoinRoom "H" data.
Proof.
  eexists. eexists.
  split; [reflexivity|]. split; [simpl; auto|].
  apply (error_means_rejected_join
           (EvJoinRoom "H" (data_room "123AB" "IslandH")) rooms_full);
    [reflexivity|simpl; auto].
Defined.

(** ** The life of rooms and memberships *)

(** X8. Only [create_room] registers a room, and only [disconnect] removes
    one: a room id that becomes registered holds the room just created, and
    a room that disappears has lost, with the disconnecting connection, its
    last player. *)
Theorem room_lifecycle e rooms rooms' fx rid :
  handle e rooms = Some (rooms', fx) ->
  (Dict.get rid rooms = None -> Dict.get rid rooms' <> None ->
   exists attempts conn data,
     e = EvCreateRoom attempts conn data
     /\ Dict.get rid rooms' = Some (created_room rid conn data))
  /\ (forall room,
        Dict.get rid rooms = Some room -> Dict.get rid rooms' = None ->
        exists conn,
          e = EvDisconnect conn
          /\ Dict.get conn (players room) <> None
          /\ Dict.del conn (players room) = []).
Proof.
  intros H. split.
  - intros N N'. destruct (Dict.get rid rooms') as [room'|] eqn:G'; [|tauto].
    destruct (handle_room_change _ _ _ _ _ _ H G')
      as [(room0 & G0 & _)|(_ & attempts & conn & data & -> & ->)];
      [congruence|eauto].
  - intros room G G'. destruct e; simpl in H.
    + unfold create_room in H.
      destruct (fresh_room_id attempts rooms) as [rid0|]; [|discriminate].
      rewrite get_set_same in H. injection H as <- _.
      rewrite !get_set, G in G'.
      destruct (String.eqb rid rid0); discriminate.
    + injection H as H.
      destruct (join_room_cases conn data rooms)
        as [[E _]|(rid0 & room0 & _ & _ & _ & E)];
        apply (f_equal fst) in H; cbn [fst] in H; rewrite E in H;
        cbn [fst] in H; subst rooms'; [congruence|].
      rewrite get_set, G in G'. destruct (String.eqb rid rid0); discriminate.
    + injection H as H.
      destruct (update_state_cases conn data rooms)
        as [E|(rid0 & room0 & player & _ & _ & _ & E)];
        rewrite E in H; injection H as <- _; [congruence|].
      rewrite get_set, G in G'. destruct (String.eqb rid rid0); discriminate.
    + injection H as H. apply (f_equal fst) in H. cbn [fst] in H.
      rewrite get_player_list_same in H. congruence.
    + injection H as H.
      destruct (submit_turn_action_registry now now_check conn data rooms)
        as [E|(rid0 & room0 & player & _ & _ & _ & [[_ E]|[_ E]])];
        rewrite E in H; injection H as <- _; [congruence| |];
        rewrite !get_set, G in G'; destruct (String.eqb rid rid0);
        discriminate.
    + injection H as H.
      destruct (disconnect_cases conn rooms)
        as [[E _]|(rid0 & room0 & player & G0 & P & E)];
        cbv zeta in E; rewrite E in H; injection H as <- _; [congruence|].
      exists conn. split; [reflexivity|].
      destruct (Nat.eqb _ 0) eqn:Z.
      * rewrite get_del, get_set, G in G'.
        destruct (String.eqb_spec rid rid0) as [->|N]; [|discriminate].
        rewrite G in G0. injection G0 as <-. split; [congruence|].
        simpl in Z. now destruct (Dict.del conn (players room)).
      * rewrite get_set, G in G'.
        destruct (String.eqb rid rid0); discriminate.
    + injection H as H.
      destruct (check_turn_progression_cases now rid0 rooms)
        as [E|(room0 & _ & _ & _ & E)]; rewrite E in H;
        injection H as <- _; [congruence|].
      rewrite get_set, G in G'. destruct (String.eqb rid rid0); discriminate.
Qed.

Lemma room_lifecycle_witness :
  exists rooms' fx,
    handle (EvDisconnect "A") rooms_solo = Some (rooms', fx)
    /\ Dict.get "123AB" rooms' = None
    /\ (Dict.get "123AB" rooms_solo = None ->
        Dict.get "123AB" rooms' <> None ->
        exists attempts conn data,
          EvDisconnect "A" = EvCreateRoom attempts conn data
          /\ Dict.get "123AB" rooms'
             = Some (created_room "123AB" conn data))
    /\ (forall room,
          Dict.get "123AB" rooms_solo = Some room ->
          Dict.get "123AB" rooms' = None ->
          exists conn,
            EvDisconnect "A" = EvDisconnect conn
            /\ Dict.get conn (players room) <> None
            /\ Dict.del conn (players room) = []).
Proof.
  eexists. eexists. split; [reflexivity|]. split; [reflexivity|].
  exact (room_lifecycle (EvDisconnect "A") rooms_solo _ _ "123AB" eq_refl).
Defined.

Lemma map_set_same {V W : Type} (f : string * V -> W) k v v0 d :
  Dict.get k d = Some v0 ->
  f (k, v) = f (k, v0) ->
  map f (Dict.set k v d) = map f d.
Proof.
  intros G E. induction d as [|[k0 w] d IH]; simpl in *; [discriminate|].
  destruct (String.eqb_spec k k0) as [->|N]; simpl.
  - injection G as ->. now rewrite E.
  - now rewrite IH.
Qed.

Lemma roster_reset_all ps :
  map (fun kp : string * Player => (fst kp, island_name (snd kp)))
      (reset_all ps)
  = map (fun kp => (fst kp, island_name (snd kp))) ps.
Proof.
  unfold reset_all. rewrite map_map. reflexivity.
Qed.

Lemma roster_advanced room : roster (advanced room) = roster room.
Proof. apply roster_reset_all. Qed.

Lemma roster_submitted now conn data player room :
  Dict.get conn (players room) = Some player ->
  roster (submitted now conn data player room) = roster room.
Proof.
  intros P. unfold roster. rewrite players_submitted.
  now apply (map_set_same _ _ _ player).
Qed.

Lemma max_players_submitted now conn data player room :
  max_players (submitted now conn data player room) = max_players room.
Proof.
  unfold submitted. now destruct (Nat.eqb _ 1).
Qed.

(** X9. [update_state], [get_player_list], [submit_turn_action] and the
    checks of the timer loop change neither who is registered nor who is in
    a room: every room stays registered, with the same connections under
    the same island names in the same order, and the same capacity. *)
Theorem turn_events_keep_membership e rooms rooms' fx rid room :
  keeps_membership e = true ->
  handle e rooms = Some (rooms', fx) ->
  Dict.get rid rooms = Some room ->
  exists room',
    Dict.get rid rooms' = Some room'
    /\ roster room' = roster room
    /\ max_players room' = max_players room
    /\ room_id room' = room_id room.
Proof.
  intros K H G. destruct e; try discriminate K; simpl in H; injection H as H.
  - destruct (update_state_cases conn data rooms)
      as [E|(rid0 & room0 & player & _ & G0 & P & E)];
      rewrite E in H; injection H as <- _; [eauto|].
    rewrite get_set.
    destruct (String.eqb_spec rid rid0) as [->|N]; [|eauto].
    rewrite G in G0. injection G0 as <-.
    eexists. split; [reflexivity|]. repeat split.
    unfold roster, updated_room. simpl.
    now apply (map_set_same _ _ _ player).
  - apply (f_equal fst) in H. cbn [fst] in H.
    rewrite get_player_list_same in H. subst. eauto.
  - destruct (submit_turn_action_registry now now_check conn data rooms)
      as [E|(rid0 & room0 & player & _ & G0 & P & [[_ E]|[_ E]])];
      rewrite E in H; injection H as <- _; [eauto| |];
      rewrite !get_set;
      (destruct (String.eqb_spec rid rid0) as [->|N]; [|eauto]);
      rewrite G in G0; injection G0 as <-;
      (eexists; split; [reflexivity|]).
    + rewrite (roster_submitted _ _ _ _ _ P), max_players_submitted,
        room_id_submitted. auto.
    + rewrite roster_advanced, (roster_submitted _ _ _ _ _ P). simpl.
      rewrite max_players_submitted, room_id_submitted. auto.
  - destruct (check_turn_progression_cases now rid0 rooms)
      as [E|(room0 & G0 & _ & _ & E)]; rewrite E in H;
      injection H as <- _; [eauto|].
    rewrite get_set.
    destruct (String.eqb_spec rid rid0) as [->|N]; [|eauto].
    rewrite G in G0. injection G0 as <-.
    eexists. split; [reflexivity|]. rewrite roster_advanced. auto.
Qed.

Lemma turn_events_keep_membership_witness :
  exists rooms' fx room room',
    keeps_membership (EvTimerCheck 200 "123AB") = true
    /\ handle (EvTimerCheck 200 "123AB") rooms_pair_a_done = Some (rooms', fx)
    /\ Dict.get "123AB" rooms_pair_a_done = Some room
    /\ Dict.get "123AB" rooms' = Some room'
    /\ roster room' = [("A", "IslandA"); ("B", "IslandB")]
    /\ roster room' = roster room.
Proof.
  eexists. eexists. eexists.
  destruct (turn_events_keep_membership (EvTimerCheck 200 "123AB")
              rooms_pair_a_done _ _ "123AB" _ eq_refl eq_refl eq_refl)
    as (room' & G' & R & _).
  exists room'.
  split; [reflexivity|]. split; [reflexivity|]. split; [reflexivity|].
  split; [exact G'|]. split; [|exact R].
  rewrite R. reflexivity.
Defined.

(** X10. Events of a connection that is a player of no registered room
    are ignored: [update_state], [submit_turn_action] and [disconnect]
    change nothing and send nothing, whatever room id they name. *)
Theorem stranger_is_ignored now now_check conn data rooms :
  stranger conn rooms ->
  update_state conn data rooms = (rooms, [])
  /\ submit_turn_action now now_check conn data rooms = (rooms, [])
  /\ disconnect conn rooms = (rooms, []).
Proof.
  intros S. split; [|split].
  - destruct (update_state_cases conn data rooms)
      as [E|(rid0 & room0 & player & _ & G0 & P & _)]; auto.
    rewrite (S _ _ G0) in P. discriminate.
  - destruct (submit_turn_action_registry now now_check conn data rooms)
      as [E|(rid0 & room0 & player & _ & G0 & P & _)]; auto.
    rewrite (S _ _ G0) in P. discriminate.
  - destruct (disconnect_cases conn rooms)
      as [[E _]|(rid0 & room0 & player & G0 & P & _)]; auto.
    rewrite (S _ _ G0) in P. discriminate.
Qed.

Lemma stranger_is_ignored_witness :
  stranger "Z" rooms_pair
  /\ update_state "Z" (data_room "123AB" "IslandZ") rooms_pair
     = (rooms_pair, [])
  /\ submit_turn_action 0 0 "Z" (data_room "123AB" "IslandZ") rooms_pair
     = (rooms_pair, [])
  /\ disconnect "Z" rooms_pair = (rooms_pair, []).
Proof.
  assert (S : stranger "Z" rooms_pair).
  { intros rid room. unfold rooms_pair. simpl.
    destruct (String.eqb rid "123AB"); [|discriminate].
    now intros [= <-]. }
  split; [exact S|].
  exact (stranger_is_ignored 0 0 "Z" (data_room "123AB" "IslandZ")
           rooms_pair S).
Defined.

(** ** Saved states and the player list *)

Lemma in_set {V : Type} k (v : V) d kv :
  In kv (Dict.set k v d) -> kv = (k, v) \/ In kv d.
Proof.
  induction d as [|[k0 v0] d IH]; simpl.
  - intros [<-|[]]. auto.
  - destruct (String.eqb k k0); simpl; intros [<-|I]; auto.
    destruct (IH I); auto.
Qed.

(** X11. After [update_state] by a player of a room, [get_player_list] for
    that room answers the asking connection with one entry per player, in
    the order of the room: the entry of the updating player carries the new
    saved state, and the entries of the other players are as before. *)
Theorem update_state_then_get_player_list
    conn asker data query rooms rid room player :
  roomId data = Some rid ->
  roomId query = Some rid ->
  Dict.get rid rooms = Some room ->
  Dict.get conn (players room) = Some player ->
  let rooms1 := fst (update_state conn data rooms) in
  exists infos,
    get_player_list asker query rooms1
    = (rooms1, [Emit (player_list infos) asker])
    /\ map info_sid infos = Dict.keys (players room)
    /\ In (mkPlayerInfo conn (island_name player) (saveData data)) infos
    /\ (forall i, In i infos -> info_sid i <> conn ->
                  In i (player_infos room)).
Proof.
  intros D Q G P rooms1. subst rooms1.
  unfold update_state. rewrite D, G, P. cbn [fst].
  unfold get_player_list. rewrite Q, get_set_same.
  eexists. split; [reflexivity|]. cbn [players set_players].
  split; [|split].
  - rewrite map_map. cbn [info_sid].
    change (map (fun x : string * Player => fst x) ?d) with (Dict.keys d).
    now apply (keys_set_present _ _ player).
  - apply (in_map (fun kp : string * Player =>
                     mkPlayerInfo (fst kp) (island_name (snd kp))
                                  (save_data (snd kp)))
                  _ (conn, set_save_data (saveData data) player)).
    apply get_in, get_set_same.
  - intros i I N. apply in_map_iff in I as (kp & <- & I).
    apply in_set in I as [->|I]; [now elim N|].
    unfold player_infos. apply in_map_iff. eauto.
Qed.

Lemma update_state_then_get_player_list_witness :
  exists room player infos,
    Dict.get "123AB" rooms_pair = Some room
    /\ Dict.get "B" (players room) = Some player
    /\ get_player_list "A" (data_room "123AB" "")
         (fst (update_state "B" (data_room "123AB" "") rooms_pair))
       = (fst (update_state "B" (data_room "123AB" "") rooms_pair),
          [Emit (player_list infos) "A"])
    /\ infos = [mkPlayerInfo "A" "IslandA" "save0";
                mkPlayerInfo "B" "IslandB" "save1"].
Proof.
  eexists. eexists.
  destruct (update_state_then_get_player_list "B" "A"
              (data_room "123AB" "") (data_room "123AB" "") rooms_pair
              "123AB" _ _ eq_refl eq_refl eq_refl eq_refl)
    as (infos & E & _).
  exists infos. split; [reflexivity|]. split; [reflexivity|].
  split; [exact E|].
  apply (f_equal snd) in E. simpl in E. congruence.
Defined.

(** X12. [submit_turn_action] by a player of a room stores the submitted
    saved state in that player's record, under the same connection id and
    island name, also when the submission advances the turn. *)
Theorem submit_stores_save_data now now_check conn data rooms rid room player :
  roomId data = Some rid ->
  Dict.get rid rooms = Some room ->
  Dict.get conn (players room) = Some player ->
  exists room' player',
    Dict.get rid (fst (submit_turn_action now now_check conn data rooms))
    = Some room'
    /\ Dict.get conn (players room') = Some player'
    /\ save_data player' = saveData data
    /\ island_name player' = island_name player
    /\ sid player' = sid player.
Proof.
  intros D G P.
  destruct (submit_turn_action_registry now now_check conn data rooms)
    as [E|(rid0 & room0 & player0 & D0 & G0 & P0 & [[_ E]|[_ E]])].
  - exfalso. unfold submit_turn_action in E. rewrite D, G, P in E.
    destruct (Nat.eqb _ 1); destruct (check_turn_progression _ _ _);
      apply (f_equal snd) in E; simpl in E;
      destruct (outgoingActions data); discriminate.
  - rewrite D in D0. injection D0 as <-. rewrite G in G0. injection G0 as <-.
    rewrite P in P0. injection P0 as <-.
    rewrite E. cbn [fst]. rewrite get_set_same.
    eexists. eexists. split; [reflexivity|].
    rewrite players_submitted, get_set_same. auto.
  - rewrite D in D0. injection D0 as <-. rewrite G in G0. injection G0 as <-.
    rewrite P in P0. injection P0 as <-.
    rewrite E. cbn [fst]. rewrite get_set_same.
    eexists. eexists. split; [reflexivity|].
    unfold advanced. cbn [players set_players set_timer_active set_turn].
    rewrite get_reset_all, players_submitted, get_set_same. simpl. auto.
Qed.

Lemma submit_stores_save_data_witness :
  exists room player room' player',
    roomId (mkData (Some "123AB") "" "save2" []) = Some "123AB"
    /\ Dict.get "123AB" rooms_pair_a_done = Some room
    /\ Dict.get "B" (players room) = Some player
    /\ save_data player = "save1"
    /\ Dict.get "123AB"
         (fst (submit_turn_action 50 50 "B"
                 (mkData (Some "123AB") "" "save2" [])
                 rooms_pair_a_done)) = Some room'
    /\ Dict.get "B" (players room') = Some player'
    /\ save_data player' = "save2"
    /\ island_name player' = island_name player
    /\ sid player' = sid player.
Proof.
  eexists. eexists.
  destruct (submit_stores_save_data 50 50 "B"
              (mkData (Some "123AB") "" "save2" [])
              rooms_pair_a_done "123AB" _ _ eq_refl eq_refl eq_refl)
    as (room' & player' & G' & P' & S & I & C).
  exists room', player'.
  split; [reflexivity|]. split; [reflexivity|]. split; [reflexivity|].
  split; [reflexivity|]. split; [exact G'|]. split; [exact P'|].
  split; [exact S|]. split; [exact I|exact C].
Defined.

(** ** The first and the last submission of a turn *)

Lemma done_count_mark_done conn data player room :
  Dict.get conn (players room) = Some player ->
  done_count_of (mark_done conn data player room) + done_bit player
  = done_count_of room + 1.
Proof.
  intros P. unfold done_count_of, mark_done. simpl.
  apply (count_set_present conn
           (set_is_turn_done true (set_save_data (saveData data) player))
           player _ P).
Qed.

Lemma total_mark_done conn data player room :
  Dict.get conn (players room) = Some player ->
  total_of (mark_done conn data player room) = total_of room.
Proof.
  intros P. unfold total_of, mark_done. simpl.
  now apply (len_set_present _ _ player).
Qed.

Lemma done_bit_le conn player room :
  Dict.get conn (players room) = Some player ->
  done_bit player <= done_count_of room.
Proof.
  intros P. unfold done_bit. destruct (is_turn_done player) eqn:T; [|lia].
  apply (count_done_pos _ _ _ P T).
Qed.

(** X13. In a room of at least two players none of whom has finished, the
    submission of a player starts the timer and does not advance the turn,
    provided the clock read by the closing check is before the new
    deadline: the turn is unchanged, the timer is on with deadline
    [now + 180], one player is marked as finished, [timer_start] and the
    ratio 1/total are broadcast to the room, and no [proceed_turn] is. *)
Theorem first_submit_starts_timer
    now now_check conn data rooms rid room player :
  roomId data = Some rid ->
  Dict.get rid rooms = Some room ->
  Dict.get conn (players room) = Some player ->
  done_count_of room = 0 ->
  2 <= total_of room ->
  (now_check < now + 180)%Z ->
  let res := submit_turn_action now now_check conn data rooms in
  (exists room',
      Dict.get rid (fst res) = Some room'
      /\ turn room' = turn room
      /\ timer_active room' = true
      /\ turn_deadline room' = (now + 180)%Z
      /\ done_count_of room' = 1
      /\ total_of room' = total_of room)
  /\ In (Emit (timer_start (now + 180)) rid) (snd res)
  /\ In (Emit (system_message
                 (MsgTurnDone (island_name player) 1 (total_of room))) rid)
        (snd res)
  /\ (forall t, ~ In (Emit (proceed_turn t) rid) (snd res)).
Proof.
  intros D G P Z0 T C res. subst res.
  pose proof (done_count_mark_done conn data player room P) as Q.
  pose proof (done_bit_le conn player room P) as B.
  pose proof (total_mark_done conn data player room P) as L.
  assert (Q1 : done_count_of (mark_done conn data player room) = 1) by lia.
  assert (S : submitted now conn data player room
              = start_timer now (mark_done conn data player room)).
  { unfold submitted. now rewrite Q1. }
  assert (A : advance_condition now_check
                (submitted now conn data player room) = false).
  { rewrite S. unfold advance_condition.
    change (done_count_of (start_timer now ?r)) with (done_count_of r).
    change (total_of (start_timer now ?r)) with (total_of r).
    rewrite Q1, L.
    replace (Nat.eqb 1 (total_of room)) with false
      by (symmetry; apply Nat.eqb_neq; lia).
    cbn [orb Nat.ltb Nat.leb andb start_timer set_turn_deadline
         set_timer_active timer_active turn_deadline].
    apply Z.leb_gt. exact C. }
  destruct (submit_turn_action_registry now now_check conn data rooms)
    as [E|(rid0 & room0 & player0 & D0 & G0 & P0 & E)].
  { exfalso. unfold submit_turn_action in E. rewrite D, G, P in E.
    destruct (Nat.eqb _ 1); destruct (check_turn_progression _ _ _);
      apply (f_equal snd) in E; simpl in E;
      destruct (outgoingActions data); discriminate. }
  rewrite D in D0. injection D0 as <-. rewrite G in G0. injection G0 as <-.
  rewrite P in P0. injection P0 as <-. cbv zeta in E.
  destruct E as [[_ E]|[A' _]]; [|congruence].
  rewrite E. cbn [fst snd]. split; [|split; [|split]].
  - exists (submitted now conn data player room).
    rewrite get_set_same, S. split; [reflexivity|].
    change (done_count_of (start_timer now ?r)) with (done_count_of r).
    change (total_of (start_timer now ?r)) with (total_of r).
    simpl. auto.
  - unfold submit_effects. rewrite Q1. simpl. auto.
  - unfold submit_effects. rewrite Q1, S.
    change (total_of (start_timer now ?r)) with (total_of r). rewrite L.
    apply in_or_app. right. apply in_or_app. right. simpl. auto.
  - intros t I. apply submit_effects_kinds in I
      as [[? I]|[(? & ? & I)|[? I]]]; discriminate.
Qed.

Lemma first_submit_starts_timer_witness :
  exists room player room',
    Dict.get "123AB" rooms_pair = Some room
    /\ Dict.get "A" (players room) = Some player
    /\ done_count_of room = 0
    /\ 2 <= total_of room
    /\ (100 < 0 + 180)%Z
    /\ Dict.get "123AB"
         (fst (submit_turn_action 0 100 "A" (data_room "123AB" "")
                 rooms_pair)) = Some room'
    /\ turn room' = turn room
    /\ timer_active room' = true
    /\ turn_deadline room' = 180%Z.
Proof.
  eexists. eexists.
  destruct (first_submit_starts_timer 0 100 "A" (data_room "123AB" "")
              rooms_pair "123AB" _ _ eq_refl eq_refl eq_refl eq_refl
              (le_n 2) eq_refl)
    as ((room' & G' & T & A & Dl & _) & _).
  exists room'.
  split; [reflexivity|]. split; [reflexivity|]. split; [reflexivity|].
  split; [apply le_n|]. split; [reflexivity|]. split; [exact G'|].
  split; [exact T|]. split; [exact A|exact Dl].
Defined.

(** X14. In a room of at least two players, the submission of the last
    player who had not finished advances the turn at once: the turn grows
    by one, the timer is off, every flag is reset, the deadline is left as
    it was, [proceed_turn] is broadcast and no [timer_start] is. *)
Theorem last_submit_advances now now_check conn data rooms rid room player :
  roomId data = Some rid ->
  Dict.get rid rooms = Some room ->
  Dict.get conn (players room) = Some player ->
  is_turn_done player = false ->
  done_count_of room + 1 = total_of room ->
  2 <= total_of room ->
  let res := submit_turn_action now now_check conn data rooms in
  (exists room',
      Dict.get rid (fst res) = Some room'
      /\ turn room' = (turn room + 1)%Z
      /\ timer_active room' = false
      /\ done_count_of room' = 0
      /\ turn_deadline room' = turn_deadline room
      /\ roster room' = roster room)
  /\ In (Emit (proceed_turn (turn room + 1)) rid) (snd res)
  /\ (forall d, ~ In (Emit (timer_start d) rid) (snd res)).
Proof.
  intros D G P F Q T res. subst res.
  pose proof (done_count_mark_done conn data player room P) as Q1.
  pose proof (total_mark_done conn data player room P) as L.
  unfold done_bit in Q1. rewrite F in Q1.
  assert (N1 : Nat.eqb (done_count_of (mark_done conn data player room)) 1
               = false) by (apply Nat.eqb_neq; lia).
  assert (S : submitted now conn data player room
              = mark_done conn data player room).
  { unfold submitted. now rewrite N1. }
  assert (A : advance_condition now_check
                (submitted now conn data player room) = true).
  { rewrite S. unfold advance_condition.
    replace (Nat.eqb (done_count_of (mark_done conn data player room))
                     (total_of (mark_done conn data player room)))
      with true by (symmetry; apply Nat.eqb_eq; lia).
    reflexivity. }
  destruct (submit_turn_action_registry now now_check conn data rooms)
    as [E|(rid0 & room0 & player0 & D0 & G0 & P0 & E)].
  { exfalso. unfold submit_turn_action in E. rewrite D, G, P in E.
    destruct (Nat.eqb _ 1); destruct (check_turn_progression _ _ _);
      apply (f_equal snd) in E; simpl in E;
      destruct (outgoingActions data); discriminate. }
  rewrite D in D0. injection D0 as <-. rewrite G in G0. injection G0 as <-.
  rewrite P in P0. injection P0 as <-. cbv zeta in E.
  destruct E as [[A' _]|[_ E]]; [congruence|].
  rewrite E. cbn [fst snd]. split; [|split].
  - exists (advanced (submitted now conn data player room)).
    rewrite get_set_same. split; [reflexivity|].
    rewrite done_count_advanced, roster_advanced,
      (roster_submitted _ _ _ _ _ P).
    simpl. rewrite turn_submitted, S. auto.
  - apply in_or_app. right. simpl. auto.
  - intros d I. apply in_app_or in I as [I|[I|[]]]; [|discriminate].
    unfold submit_effects in I. rewrite N1 in I. simpl in I.
    apply in_app_or in I as [I|[I|[]]]; [|discriminate].
    destruct (outgoingActions data); simpl in I; [tauto|].
    destruct I as [I|[]]. discriminate.
Qed.

Lemma last_submit_advances_witness :
  exists room player room',
    Dict.get "123AB" rooms_pair_a_done = Some room
    /\ Dict.get "B" (players room) = Some player
    /\ is_turn_done player = false
    /\ done_count_of room + 1 = total_of room
    /\ 2 <= total_of room
    /\ Dict.get "123AB"
         (fst (submit_turn_action 50 50 "B" (data_room "123AB" "")
                 rooms_pair_a_done)) = Some room'
    /\ turn room' = (turn room + 1)%Z
    /\ timer_active room' = false
    /\ done_count_of room' = 0.
Proof.
  eexists. eexists.
  destruct (last_submit_advances 50 50 "B" (data_room "123AB" "")
              rooms_pair_a_done "123AB" _ _ eq_refl eq_refl eq_refl eq_refl
              eq_refl (le_n 2))
    as ((room' & G' & T & A & Dn & _) & _).
  exists room'.
  split; [reflexivity|]. split; [reflexivity|]. split; [reflexivity|].
  split; [reflexivity|]. split; [apply le_n|]. split; [exact G'|].
  split; [exact T|]. split; [exact A|exact Dn].
Defined.

(** ** Joining again *)

(** X15. When a connection that is already a player of a room that is not
    full joins it again, its record is replaced by a new one, not finished:
    the room keeps the same connections in the same order, and if the
    player had finished the count of finished players drops by one, while
    turn and timer stay as they are. *)
Theorem rejoin_replaces_player conn data rooms rid room player :
  roomId data = Some rid ->
  Dict.get rid rooms = Some room ->
  Dict.get conn (players room) = Some player ->
  total_of room < max_players room ->
  exists room',
    Dict.get rid (fst (join_room conn data rooms)) = Some room'
    /\ Dict.keys (players room') = Dict.keys (players room)
    /\ Dict.get conn (players room')
       = Some (Player_init conn (islandName data) (saveData data))
    /\ done_count_of room' + done_bit player = done_count_of room
    /\ turn room' = turn room
    /\ timer_active room' = timer_active room
    /\ turn_deadline room' = turn_deadline room.
Proof.
  intros D G P L. unfold join_room. rewrite D, G.
  apply Nat.leb_gt in L. unfold total_of in L. rewrite L. cbn [fst].
  eexists. rewrite get_set_same. split; [reflexivity|].
  cbn [players set_players turn timer_active turn_deadline].
  split; [now apply (keys_set_present _ _ player)|].
  split; [apply get_set_same|]. split; [|auto].
  unfold done_count_of. cbn [players set_players].
  pose proof (count_set_present conn
    (Player_init conn (islandName data) (saveData data)) player _ P) as Q.
  change (done_bit (Player_init _ _ _)) with 0 in Q. lia.
Qed.

Lemma rejoin_replaces_player_witness :
  exists room player room',
    Dict.get "123AB" rooms_pair_a_done = Some room
    /\ Dict.get "A" (players room) = Some player
    /\ total_of room < max_players room
    /\ done_count_of room = 1
    /\ Dict.get "123AB"
         (fst (join_room "A" (data_room "123AB" "IslandA")
                 rooms_pair_a_done)) = Some room'
    /\ done_count_of room' + done_bit player = done_count_of room
    /\ timer_active room' = timer_active room.
Proof.
  eexists. eexists.
  assert (L : 2 < 7) by (repeat constructor).
  destruct (rejoin_replaces_player "A" (data_room "123AB" "IslandA")
              rooms_pair_a_done "123AB" _ _ eq_refl eq_refl eq_refl L)
    as (room' & G' & _ & _ & Q & _ & T & _).
  exists room'.
  split; [reflexivity|]. split; [reflexivity|]. split; [exact L|].
  split; [reflexivity|]. split; [exact G'|]. split; [exact Q|exact T].
Defined.

(** ** A pass of the timer loop *)

(** A check leaves alone a room that has just advanced and has players. *)
Lemma check_keeps_advanced now rid0 rooms rid room :
  players room <> [] ->
  Dict.get rid rooms = Some (advanced room) ->
  Dict.get rid (fst (check_turn_progression now rid0 rooms))
  = Some (advanced room).
Proof.
  intros NE G.
  destruct (check_turn_progression_cases now rid0 rooms)
    as [E|(room0 & G0 & NE0 & A & E)]; rewrite E; cbn [fst]; auto.
  rewrite get_set. destruct (String.eqb_spec rid rid0) as [->|N]; auto.
  exfalso. rewrite G in G0. injection G0 as <-.
  unfold advance_condition in A. rewrite done_count_advanced in A.
  unfold total_of, advanced in A. simpl in A.
  rewrite len_reset_all in A.
  destruct (players room); [tauto|discriminate].
Qed.

Lemma sweep_keeps_advanced clock : forall ids rooms rid room,
  players room <> [] ->
  Dict.get rid rooms = Some (advanced room) ->
  Dict.get rid (fst (timer_sweep clock ids rooms)) = Some (advanced room).
Proof.
  induction clock as [|now clock IH]; intros [|rid0 ids] rooms rid room NE G;
    simpl; auto.
  pose proof (check_keeps_advanced now rid0 rooms rid room NE G) as G1.
  destruct (check_turn_progression now rid0 rooms) as [rooms1 fx1].
  specialize (IH ids rooms1 rid room NE G1).
  destruct (timer_sweep clock ids rooms1) as [rooms2 fx2]. exact IH.
Qed.

Lemma sweep_advances clock : forall ids rooms rid room,
  Dict.get rid rooms = Some room ->
  0 < done_count_of room ->
  timer_active room = true ->
  Forall (fun now => (turn_deadline room <= now)%Z) clock ->
  In rid ids ->
  List.length ids <= List.length clock ->
  Dict.get rid (fst (timer_sweep clock ids rooms)) = Some (advanced room)
  /\ In (Emit (proceed_turn (turn room + 1)) rid)
        (snd (timer_sweep clock ids rooms)).
Proof.
  induction clock as [|now clock IH];
    intros [|rid0 ids] rooms rid room G Dn T F I L;
    try (now destruct I); simpl in L; try lia.
  assert (NE : players room <> []).
  { unfold done_count_of in Dn. destruct (players room); [simpl in Dn; lia|].
    discriminate. }
  inversion F as [|? ? Fnow F']; subst. simpl.
  destruct (String.eqb_spec rid0 rid) as [->|N].
  - assert (A : advance_condition now room = true).
    { unfold advance_condition. rewrite T.
      apply Nat.ltb_lt in Dn. rewrite Dn.
      apply Z.leb_le in Fnow. rewrite Fnow. apply orb_true_r. }
    rewrite (check_turn_progression_eq now rid rooms room G NE), A.
    pose proof (sweep_keeps_advanced clock ids
                  (Dict.set rid (advanced room) rooms) rid room NE
                  (get_set_same _ _ _)) as K.
    destruct (timer_sweep clock ids _) as [rooms2 fx2].
    split; [exact K|]. simpl. auto.
  - assert (G1 : Dict.get rid (fst (check_turn_progression now rid0 rooms))
                 = Some room).
    { destruct (check_turn_progression_cases now rid0 rooms)
        as [E|(room0 & _ & _ & _ & E)]; rewrite E; cbn [fst]; auto.
      rewrite get_set_other; auto. }
    destruct (check_turn_progression now rid0 rooms) as [rooms1 fx1].
    destruct I as [I|I]; [congruence|].
    destruct (IH ids rooms1 rid room G1 Dn T F' I) as [K J]; [lia|].
    destruct (timer_sweep clock ids rooms1) as [rooms2 fx2].
    split; [exact K|]. apply in_or_app. auto.
Qed.

(** X16. A pass of the timer loop over the registered rooms, with one
    clock reading for each of them, advances every room in which a player
    has finished, the timer is on and the deadline has been reached at
    every reading: afterwards the room is at the next turn with the timer
    off and all flags reset, and [proceed_turn] has been broadcast to it. *)
Theorem timer_sweep_advances_expired clock rooms rid room :
  Dict.get rid rooms = Some room ->
  0 < done_count_of room ->
  timer_active room = true ->
  Forall (fun now => (turn_deadline room <= now)%Z) clock ->
  List.length (Dict.keys rooms) <= List.length clock ->
  let res := timer_sweep clock (Dict.keys rooms) rooms in
  exists room',
    Dict.get rid (fst res) = Some room'
    /\ turn room' = (turn room + 1)%Z
    /\ timer_active room' = false
    /\ done_count_of room' = 0
    /\ roster room' = roster room
    /\ In (Emit (proceed_turn (turn room + 1)) rid) (snd res).
Proof.
  intros G Dn T F L res. subst res.
  destruct (sweep_advances clock (Dict.keys rooms) rooms rid room G Dn T F)
    as [K J]; [eapply get_in_keys; eauto|exact L|].
  exists (advanced room). split; [exact K|].
  rewrite done_count_advanced, roster_advanced. simpl. auto.
Qed.

Lemma timer_sweep_advances_expired_witness :
  exists room room',
    Dict.get "123AB" rooms_pair_a_done = Some room
    /\ 0 < done_count_of room
    /\ timer_active room = true
    /\ Forall (fun now => (turn_deadline room <= now)%Z) [183%Z]
    /\ List.length (Dict.keys rooms_pair_a_done) <= List.length [183%Z]
    /\ Dict.get "123AB"
         (fst (timer_sweep [183%Z] (Dict.keys rooms_pair_a_done)
                 rooms_pair_a_done)) = Some room'
    /\ turn room' = 1%Z
    /\ timer_active room' = false.
Proof.
  eexists.
  assert (F : Forall (fun now => (180 <= now)%Z) [183%Z]).
  { repeat constructor. discriminate. }
  destruct (timer_sweep_advances_expired [183%Z] rooms_pair_a_done "123AB" _
              eq_refl (le_n 1) eq_refl F (le_n 1))
    as (room' & G' & U & T & _).
  exists room'.
  split; [reflexivity|]. split; [apply le_n|]. split; [reflexivity|].
  split; [exact F|]. split; [apply le_n|]. split; [exact G'|].
  split; [exact U|exact T].
Defined.

Lemma check_frame now rid0 rooms :
  Dict.keys (fst (check_turn_progression now rid0 rooms)) = Dict.keys rooms
  /\ (forall rid room,
        Dict.get rid rooms = Some room ->
        exists room',
          Dict.get rid (fst (check_turn_progression now rid0 rooms))
          = Some room'
          /\ roster room' = roster room
          /\ (turn room <= turn room')%Z)
  /\ Forall (fun x => exists t r, x = Emit (proceed_turn t) r)
            (snd (check_turn_progression now rid0 rooms)).
Proof.
  destruct (check_turn_progression_cases now rid0 rooms)
    as [E|(room0 & G0 & _ & _ & E)]; rewrite E; cbn [fst snd].
  - split; [reflexivity|]. split; [|constructor].
    intros rid room G. exists room. split; [auto|]. split; [auto|lia].
  - split; [now apply (keys_set_present _ _ room0)|]. split.
    + intros rid room G. rewrite get_set.
      destruct (String.eqb_spec rid rid0) as [->|N].
      * rewrite G in G0. injection G0 as <-.
        eexists. split; [reflexivity|].
        rewrite roster_advanced. simpl. split; [auto|lia].
      * exists room. split; [auto|]. split; [auto|lia].
    + repeat constructor. eauto.
Qed.

(** X17. A pass of the timer loop neither registers nor removes a room and
    changes no membership: the room ids stay the same in the same order,
    every room keeps its connections and island names, no turn goes down,
    and the only messages sent are [proceed_turn] messages. *)
Theorem timer_sweep_frame clock : forall ids rooms,
  Dict.keys (fst (timer_sweep clock ids rooms)) = Dict.keys rooms
  /\ (forall rid room,
        Dict.get rid rooms = Some room ->
        exists room',
          Dict.get rid (fst (timer_sweep clock ids rooms)) = Some room'
          /\ roster room' = roster room
          /\ (turn room <= turn room')%Z)
  /\ Forall (fun x => exists t r, x = Emit (proceed_turn t) r)
            (snd (timer_sweep clock ids rooms)).
Proof.
  assert (Base : forall rooms : Rooms,
             Dict.keys rooms = Dict.keys rooms
             /\ (forall rid room,
                   Dict.get rid rooms = Some room ->
                   exists room',
                     Dict.get rid rooms = Some room'
                     /\ roster room' = roster room
                     /\ (turn room <= turn room')%Z)
             /\ Forall (fun x : Effect =>
                          exists t r, x = Emit (proceed_turn t) r) []).
  { intros rooms. split; [reflexivity|]. split; [|constructor].
    intros rid room G. exists room. split; [auto|]. split; [auto|lia]. }
  induction clock as [|now clock IH]; intros [|rid0 ids] rooms; simpl;
    try apply Base.
  destruct (check_frame now rid0 rooms) as (K1 & R1 & F1).
  destruct (check_turn_progression now rid0 rooms) as [rooms1 fx1].
  cbn [fst snd] in *.
  destruct (IH ids rooms1) as (K2 & R2 & F2).
  destruct (timer_sweep clock ids rooms1) as [rooms2 fx2].
  cbn [fst snd] in *.
  split; [congruence|]. split.
  - intros rid room G.
    destruct (R1 _ _ G) as (room1 & G1 & Ro1 & T1).
    destruct (R2 _ _ G1) as (room2 & G2 & Ro2 & T2).
    exists room2. split; [auto|]. split; [congruence|lia].
  - apply Forall_app. auto.
Qed.

(** ** Leaving a room *)

(** X18. [disconnect] does not run the turn check.  When a player leaves a
    room in which all the remaining players have finished, the room stays
    at its turn; the next check by the timer loop then advances it,
    whatever the clock reads. *)
Theorem disconnect_leaves_advance_to_timer conn rooms rid room player now :
  Dict.get rid rooms = Some room ->
  Dict.get conn (players room) = Some player ->
  (forall k r, k <> rid -> Dict.get k rooms = Some r ->
               Dict.get conn (players r) = None) ->
  players (left_room conn room) <> [] ->
  done_count_of (left_room conn room) = total_of (left_room conn room) ->
  let rooms1 := fst (disconnect conn rooms) in
  Dict.get rid rooms1 = Some (left_room conn room)
  /\ turn (left_room conn room) = turn room
  /\ snd (disconnect conn rooms)
     = [Emit (system_message (MsgLeft (island_name player))) rid]
  /\ check_turn_progression now rid rooms1
     = (Dict.set rid (advanced (left_room conn room)) rooms1,
        [Emit (proceed_turn (turn room + 1)) rid]).
Proof.
  intros G P O NE Q rooms1. subst rooms1.
  destruct (disconnect_cases conn rooms)
    as [[_ N]|(rid0 & room0 & player0 & G0 & P0 & E)].
  { rewrite (N _ _ G) in P. discriminate. }
  assert (rid0 = rid) as ->.
  { destruct (String.eqb_spec rid0 rid) as [|Ne]; auto.
    rewrite (O _ _ Ne G0) in P0. discriminate. }
  rewrite G in G0. injection G0 as <-. rewrite P in P0. injection P0 as <-.
  cbv zeta in E. fold (left_room conn room) in E.
  assert (Z0 : Nat.eqb (Dict.len (players (left_room conn room))) 0 = false).
  { apply Nat.eqb_neq. unfold Dict.len.
    destruct (players (left_room conn room)); [tauto|discriminate]. }
  rewrite Z0 in E. rewrite E. cbn [fst snd]. rewrite get_set_same.
  split; [reflexivity|]. split; [reflexivity|]. split; [reflexivity|].
  rewrite (check_turn_progression_eq now rid _ (left_room conn room)
             (get_set_same _ _ _) NE).
  unfold advance_condition. rewrite Q, Nat.eqb_refl. reflexivity.
Qed.

Lemma disconnect_leaves_advance_to_timer_witness :
  exists room player,
    Dict.get "123AB" rooms_pair_a_done = Some room
    /\ Dict.get "B" (players room) = Some player
    /\ players (left_room "B" room) <> []
    /\ done_count_of (left_room "B" room) = total_of (left_room "B" room)
    /\ Dict.get "123AB" (fst (disconnect "B" rooms_pair_a_done))
       = Some (left_room "B" room)
    /\ turn (left_room "B" room) = 0%Z
    /\ check_turn_progression 1 "123AB" (fst (disconnect "B" rooms_pair_a_done))
       = (Dict.set "123AB" (advanced (left_room "B" room))
            (fst (disconnect "B" rooms_pair_a_done)),
          [Emit (proceed_turn 1) "123AB"]).
Proof.
  eexists. eexists.
  split; [reflexivity|]. split; [reflexivity|].
  split; [discriminate|]. split; [reflexivity|].
  assert (O : forall k r, k <> "123AB" ->
                Dict.get k rooms_pair_a_done = Some r ->
                Dict.get "B" (players r) = None).
  { intros k r N. unfold rooms_pair_a_done. simpl.
    destruct (String.eqb_spec k "123AB"); [contradiction|discriminate]. }
  destruct (disconnect_leaves_advance_to_timer "B" rooms_pair_a_done
              "123AB" _ _ 1%Z eq_refl eq_refl O
              ltac:(discriminate) eq_refl)
    as (G' & T & _ & C).
  split; [exact G'|]. split; [exact T|exact C].
Defined.

(** X19. For a connection that is a player of at most one room,
    [disconnect] is idempotent: after it the connection is a player of no
    room, and a second [disconnect] changes nothing and sends nothing. *)
Theorem disconnect_twice conn rooms :
  (forall k1 k2 r1 r2,
      Dict.get k1 rooms = Some r1 -> Dict.get k2 rooms = Some r2 ->
      Dict.get conn (players r1) <> None ->
      Dict.get conn (players r2) <> None -> k1 = k2) ->
  let rooms1 := fst (disconnect conn rooms) in
  stranger conn rooms1 /\ disconnect conn rooms1 = (rooms1, []).
Proof.
  intros U rooms1.
  assert (S : stranger conn rooms1).
  { subst rooms1.
    destruct (disconnect_cases conn rooms)
      as [[E N]|(rid0 & room0 & player0 & G0 & P0 & E)].
    - rewrite E. exact N.
    - cbv zeta in E. rewrite E. cbn [fst]. intros k r G.
      assert (G1 : Dict.get k (Dict.set rid0 (left_room conn room0) rooms)
                   = Some r).
      { destruct (Nat.eqb _ 0); auto. now apply get_del_some in G. }
      rewrite get_set in G1.
      destruct (String.eqb_spec k rid0) as [->|N].
      + injection G1 as <-. apply get_del_same.
      + destruct (Dict.get conn (players r)) eqn:P; auto.
        exfalso. apply N. apply (U k rid0 r room0); congruence. }
  split; [exact S|].
  destruct (disconnect_cases conn rooms1)
    as [[E _]|(rid0 & room0 & player0 & G0 & P0 & _)]; auto.
  rewrite (S _ _ G0) in P0. discriminate.
Qed.

Lemma disconnect_twice_witness :
  (forall k1 k2 r1 r2,
      Dict.get k1 rooms_pair = Some r1 -> Dict.get k2 rooms_pair = Some r2 ->
      Dict.get "A" (players r1) <> None ->
      Dict.get "A" (players r2) <> None -> k1 = k2)
  /\ stranger "A" (fst (disconnect "A" rooms_pair))
  /\ disconnect "A" (fst (disconnect "A" rooms_pair))
     = (fst (disconnect "A" rooms_pair), []).
Proof.
  assert (U : forall k1 k2 r1 r2,
             Dict.get k1 rooms_pair = Some r1 ->
             Dict.get k2 rooms_pair = Some r2 ->
             Dict.get "A" (players r1) <> None ->
             Dict.get "A" (players r2) <> None -> k1 = k2).
  { intros k1 k2 r1 r2. unfold rooms_pair. simpl.
    destruct (String.eqb_spec k1 "123AB"); [|discriminate].
    destruct (String.eqb_spec k2 "123AB"); [|discriminate].
    congruence. }
  split; [exact U|].
  exact (disconnect_twice "A" rooms_pair U).
Defined.
